(** * Oat: background subtraction, difference detection and the run loop

    A shallow embedding of
      - src/framefilter/BackgroundSubtractor.cpp
      - src/positiondetector/DifferenceDetector.cpp
      - src/positiondetector/main.cpp and src/positioncombiner/main.cpp
    together with the OpenCV operations these files call on 8-bit images. *)

From Stdlib Require Import ZArith QArith Qpower Lia Ascii SpecFloat.
From stdpp Require Import base option list strings gmap.

Local Open Scope Z_scope.

(** ** Exceptions and results

    The three exception classes that the sources throw or catch. *)

Inductive exn : Type :=
  | cv_Exception (msg : string)
  | runtime_error (msg : string)
  | parse_exception (msg : string).

Inductive Result (A : Type) : Type :=
  | Ok (a : A)
  | Throw (e : exn).
Arguments Ok {A} a.
Arguments Throw {A} e.

(** ** The OpenCV operations used by the stages (8-bit unsigned images) *)

Module cv.

(** A pixel is the list of its channel values ([list Z]); an image stores
    its pixels in row-major order, as [cv::Mat] does for a continuous
    matrix. *)

Record Mat : Type := mkMat {
  rows : Z;
  cols : Z;
  channels : Z;
  data : list (list Z)
}.

(** [cv::Mat()], the empty matrix; this is also what [cv::imread] returns
    when the file cannot be read. *)
Definition Mat_empty : Mat := mkMat 0 0 1 [].

(** [Mat::clone] is a deep copy: with values instead of buffers it is the
    identity. *)
Definition clone (m : Mat) : Mat := m.

Record Size : Type := mkSize { width : Z; height : Z }.
Record Point : Type := mkPoint { px : Z; py : Z }.
Record Rect : Type := mkRect { rx : Z; ry : Z; rwidth : Z; rheight : Z }.

Definition same_shape (a b : Mat) : bool :=
  (rows a =? rows b) && (cols a =? cols b) && (channels a =? channels b).

(** [saturate_cast<uchar>] *)
Definition saturate_cast_uchar (v : Z) : Z := Z.max 0 (Z.min 255 v).

Definition unmatched_sizes : exn :=
  cv_Exception "Sizes of input arguments do not match".

(** Element-wise binary operation of the "array op array" kind: both
    operands must have the same size and number of channels, otherwise
    OpenCV raises [cv::Exception] and leaves the destination alone. *)
Definition arithm_op (f : Z -> Z -> Z) (a b : Mat) : Result Mat :=
  if same_shape a b
  then Ok (mkMat (rows a) (cols a) (channels a)
             (zip_with (zip_with f) (data a) (data b)))
  else Throw unmatched_sizes.

(** [a - b] on matrices, i.e. [cv::subtract]: saturating. *)
Definition sub_sat (x y : Z) : Z := saturate_cast_uchar (x - y).
Definition subtract : Mat -> Mat -> Result Mat := arithm_op sub_sat.

(** [cv::absdiff]: saturate(|a - b|). *)
Definition abs_sat (x y : Z) : Z := saturate_cast_uchar (Z.abs (x - y)).
Definition absdiff : Mat -> Mat -> Result Mat := arithm_op abs_sat.

(** [cv::cvtColor(_, _, COLOR_BGR2GRAY)] on 8-bit data: the input must
    have 3 or 4 channels; Y = 0.114 B + 0.587 G + 0.299 R in the 14-bit
    fixed point arithmetic of the library. *)
Definition gray_of (p : list Z) : list Z :=
  match p with
  | b :: g :: r :: _ => [(b * 1868 + g * 9617 + r * 4899 + 8192) / 16384]
  | _ => [0]
  end.

Definition bad_channels : exn :=
  cv_Exception "Invalid number of channels in input image".

Definition cvtColor_BGR2GRAY (src : Mat) : Result Mat :=
  if (channels src =? 3) || (channels src =? 4)
  then Ok (mkMat (rows src) (cols src) 1 (gray_of <$> data src))
  else Throw bad_channels.

(** [cv::threshold(_, _, thresh, maxval, THRESH_BINARY)]:
    dst = maxval if src > thresh, 0 otherwise. *)
Definition thresh_binary (thresh maxval v : Z) : Z :=
  if thresh <? v then saturate_cast_uchar maxval else 0.

Definition threshold (src : Mat) (thresh maxval : Z) : Mat :=
  mkMat (rows src) (cols src) (channels src)
    ((fun p : list Z => thresh_binary thresh maxval <$> p) <$> data src).

(** [cv::boundingRect] of a point set: the up-right rectangle with
    inclusive corners, so a single point has width and height 1. *)
Definition min_list (d : Z) (l : list Z) : Z := foldr Z.min d l.
Definition max_list (d : Z) (l : list Z) : Z := foldr Z.max d l.

Definition boundingRect (pts : list Point) : Rect :=
  match pts with
  | [] => mkRect 0 0 0 0
  | p :: _ =>
      let x0 := min_list (px p) (px <$> pts) in
      let y0 := min_list (py p) (py <$> pts) in
      let x1 := max_list (px p) (px <$> pts) in
      let y1 := max_list (py p) (py <$> pts) in
      mkRect x0 y0 (x1 - x0 + 1) (y1 - y0 + 1)
  end.

Definition area (r : Rect) : Z := rwidth r * rheight r.

(** [float]: the IEEE 754 binary32 numbers, as the standard library
    specifies them (24 bits of precision, exponents up to 128). *)
Definition float : Type := spec_float.

(** [(float) v] for a [double] [v] that holds the number [m * 2 ^ e]: the
    nearest [float], a tie going to the one with an even mantissa. *)
Definition to_float (m e : Z) : float := binary_normalize 24 128 m e false.


(** [cv::Point2f]: two [float] coordinates. *)
Record Point2f : Type := mkPoint2f { x : float; y : float }.

(** Value of a single-channel image at linear index [i]. *)
Definition value_at (m : Mat) (i : nat) : option Z := data m !! i ≫= head.

End cv.

(** ** Configuration files

    [cpptoml::parse_file] and the tables it returns.  A file maps a
    configuration key to a table; the tables are typed by the keys the
    stages read (an entry of another TOML type under one of these keys is
    outside the model: the sources dereference an empty option there). *)

Module toml.

Record background_table : Type := mkBackgroundTable {
  background : option string
}.

Record difference_table : Type := mkDifferenceTable {
  blur : option Z;            (* int64_t *)
  diff_threshold : option Z;  (* int64_t *)
  tune : option bool
}.

(** [is_value()] of the element stored under a key: every entry of a
    typed table is a value (neither a table nor an array). *)
Definition is_value {A} (entry : option A) : bool :=
  match entry with Some _ => true | None => false end.

(** Outcome of [cpptoml::parse_file] on each file name. *)
Definition parser (T : Type) : Type := string -> Result (gmap string T).

End toml.

(** Conversion of an [int64_t] to [int] (32 bits, two's complement). *)
Definition to_int (z : Z) : Z := (z + 2 ^ 31) mod 2 ^ 32 - 2 ^ 31.

(** ** BackgroundSubtractor (src/framefilter/BackgroundSubtractor.cpp) *)

Module BackgroundSubtractor.

Record t : Type := mk {
  background_set : bool;
  background_img : cv.Mat
}.

(** Modelled from the spec: the initial value of [background_set], which
    the constructor leaves to the class declaration in
    BackgroundSubtractor.h (not among the sources): "an optional stored
    background image, initially unset".  The image is a default
    [cv::Mat]. *)
Definition new (source_name sink_name : string) : t :=
  mk false cv.Mat_empty.

(** How [configure] ends: it returns, it calls [exit(EXIT_FAILURE)], or an
    exception that is not a parse error leaves it from [parse_file]. *)
Inductive completion : Type :=
  | Returned
  | Exited (status : Z)
  | Raised (e : exn).

Definition EXIT_FAILURE : Z := 1.

Section Configure.
(** The file system as seen through [cpptoml::parse_file] and
    [cv::imread(path, CV_LOAD_IMAGE_COLOR)].  [imread] reports a file it
    cannot read by returning an empty matrix ([Ok cv.Mat_empty]); the
    handler of [cv::Exception] is there for the case that it throws. *)
Variable parse_file : toml.parser toml.background_table.
Variable imread : string -> Result cv.Mat.

Definition configure (config_file config_key : string) (b : t)
  : completion * t :=
  (* a parse failure is printed and leaves [config] empty *)
  let config : Result (gmap string toml.background_table) :=
    match parse_file config_file with
    | Ok c => Ok c
    | Throw (parse_exception _) => Ok ∅
    | Throw e => Throw e
    end in
  match config with
  | Throw e => (Raised e, b)
  | Ok config =>
  match config !! config_key with
  | Some this_config =>
      let background_img_path : string :=
        match toml.background this_config with
        | Some path => path
        | None => EmptyString
        end in
      match imread background_img_path with
      | Ok img => (Returned, mk true img)
      | Throw (cv_Exception _) => (Returned, mk false (background_img b))
      | Throw _ => (Returned, b)
      end
  | None => (Exited EXIT_FAILURE, b)
  end
  end.
End Configure.

Definition setBackgroundImage (frame : cv.Mat) (b : t) : t :=
  mk true (cv.clone frame).

(** [filter] updates [frame] in place and returns it; the result pairs
    the returned frame with the filter's new state. *)
Definition filter (frame : cv.Mat) (b : t) : cv.Mat * t :=
  if background_set b then
    match cv.subtract frame (background_img b) with
    | Ok diff => (diff, b)
    | Throw _ => (frame, b)        (* caught: the frame is left as it is *)
    end
  else
    (frame, setBackgroundImage frame b).

End BackgroundSubtractor.

(** ** Positions (lib/datatypes/Position2D.h) *)

Module oat.

Record Position2D : Type := mkPosition2D {
  position : cv.Point2f;
  position_valid : bool
}.

End oat.

(** ** A state-and-exception monad for member functions

    A member function of an object of type [S] either returns a value or
    throws; in both cases the fields it assigned before keep their new
    values. *)

Definition M (S A : Type) : Type := S -> Result A * S.

Definition ret {S A} (a : A) : M S A := fun s => (Ok a, s).

Definition bind {S A B} (m : M S A) (k : A -> M S B) : M S B :=
  fun s =>
    match m s with
    | (Ok a, s') => k a s'
    | (Throw e, s') => (Throw e, s')
    end.

Definition throw {S A} (e : exn) : M S A := fun s => (Throw e, s).
Definition gets {S A} (f : S -> A) : M S A := fun s => (Ok (f s), s).
Definition modify {S} (f : S -> S) : M S unit := fun s => (Ok tt, f s).
Definition lift {S A} (r : Result A) : M S A := fun s => (r, s).
Definition when {S} (b : bool) (m : M S unit) : M S unit :=
  if b then m else ret tt.

#[export] Instance M_ret {S} : MRet (M S) := fun A => ret.
#[export] Instance M_bind {S} : MBind (M S) := fun A B k m => bind m k.

(** ** DifferenceDetector2D (src/positiondetector/DifferenceDetector.cpp) *)

Module DifferenceDetector2D.

Record t : Type := mk {
  tuning_image_title : string;
  tuning_windows_created : bool;
  last_image_set : bool;
  tuning_on : bool;
  blur_on : bool;
  blur_size : cv.Size;
  difference_intensity_threshold : Z;       (* int *)
  this_image : cv.Mat;
  last_image : cv.Mat;
  threshold_image : cv.Mat;
  object_position : oat.Position2D
}.

Definition set_tuning_windows_created (v : bool) (d : t) : t :=
  mk (tuning_image_title d) v (last_image_set d) (tuning_on d) (blur_on d)
     (blur_size d) (difference_intensity_threshold d) (this_image d)
     (last_image d) (threshold_image d) (object_position d).
Definition set_last_image_set (v : bool) (d : t) : t :=
  mk (tuning_image_title d) (tuning_windows_created d) v (tuning_on d)
     (blur_on d) (blur_size d) (difference_intensity_threshold d)
     (this_image d) (last_image d) (threshold_image d) (object_position d).
Definition set_tuning_on (v : bool) (d : t) : t :=
  mk (tuning_image_title d) (tuning_windows_created d) (last_image_set d) v
     (blur_on d) (blur_size d) (difference_intensity_threshold d)
     (this_image d) (last_image d) (threshold_image d) (object_position d).
Definition set_blur_on (v : bool) (d : t) : t :=
  mk (tuning_image_title d) (tuning_windows_created d) (last_image_set d)
     (tuning_on d) v (blur_size d) (difference_intensity_threshold d)
     (this_image d) (last_image d) (threshold_image d) (object_position d).
Definition set_blur_size_field (v : cv.Size) (d : t) : t :=
  mk (tuning_image_title d) (tuning_windows_created d) (last_image_set d)
     (tuning_on d) (blur_on d) v (difference_intensity_threshold d)
     (this_image d) (last_image d) (threshold_image d) (object_position d).
Definition set_difference_intensity_threshold (v : Z) (d : t) : t :=
  mk (tuning_image_title d) (tuning_windows_created d) (last_image_set d)
     (tuning_on d) (blur_on d) (blur_size d) v
     (this_image d) (last_image d) (threshold_image d) (object_position d).
Definition set_this_image (v : cv.Mat) (d : t) : t :=
  mk (tuning_image_title d) (tuning_windows_created d) (last_image_set d)
     (tuning_on d) (blur_on d) (blur_size d)
     (difference_intensity_threshold d)
     v (last_image d) (threshold_image d) (object_position d).
Definition set_last_image (v : cv.Mat) (d : t) : t :=
  mk (tuning_image_title d) (tuning_windows_created d) (last_image_set d)
     (tuning_on d) (blur_on d) (blur_size d)
     (difference_intensity_threshold d)
     (this_image d) v (threshold_image d) (object_position d).
Definition set_threshold_image (v : cv.Mat) (d : t) : t :=
  mk (tuning_image_title d) (tuning_windows_created d) (last_image_set d)
     (tuning_on d) (blur_on d) (blur_size d)
     (difference_intensity_threshold d)
     (this_image d) (last_image d) v (object_position d).
Definition set_object_position (v : oat.Position2D) (d : t) : t :=
  mk (tuning_image_title d) (tuning_windows_created d) (last_image_set d)
     (tuning_on d) (blur_on d) (blur_size d)
     (difference_intensity_threshold d)
     (this_image d) (last_image d) (threshold_image d) v.

(** [object_position.position_valid = v] and
    [object_position.position = p] *)
Definition set_position_valid (v : bool) (d : t) : t :=
  set_object_position
    (oat.mkPosition2D (oat.position (object_position d)) v) d.
Definition set_position (p : cv.Point2f) (d : t) : t :=
  set_object_position
    (oat.mkPosition2D p (oat.position_valid (object_position d))) d.

Definition set_blur_size (value : Z) (d : t) : t :=
  if 0 <? value then
    set_blur_size_field (cv.mkSize value value) (set_blur_on true d)
  else
    set_blur_on false d.

(** The constructor.  Its initialiser list sets the title and three
    flags, its body calls [set_blur_size(2)]; the images and the size are
    default constructed.  The threshold and the position are initialised
    by the class declaration, which is taken as given: [threshold0] and
    [position0]. *)
Definition new (threshold0 : Z) (position0 : oat.Position2D)
    (image_source_name position_sink_name : string) : t :=
  set_blur_size 2
    (mk (position_sink_name +:+ "_tuning") false false false
        false (cv.mkSize 0 0) threshold0
        cv.Mat_empty cv.Mat_empty cv.Mat_empty position0).

Definition createTuningWindows : M t unit :=
  modify (set_tuning_windows_created true).

Definition blurSliderChangedCallback (value : Z) (d : t) : t :=
  set_blur_size value d.

(** The sliders that [createTuningWindows] puts into the tuning window:
    THRESH is bound to [difference_intensity_threshold], BLUR to
    [blur_size.height] with [blurSliderChangedCallback].  A move of a
    slider to [pos] stores [pos] in the bound variable and then calls the
    callback, if there is one, with [pos]. *)
Inductive slider_move : Type :=
  | THRESH (pos : Z)
  | BLUR (pos : Z).

Definition slide (d : t) (move : slider_move) : t :=
  match move with
  | THRESH pos => set_difference_intensity_threshold pos d
  | BLUR pos =>
      blurSliderChangedCallback pos
        (set_blur_size_field (cv.mkSize (cv.width (blur_size d)) pos) d)
  end.

Section Detect.
(** [cv::blur(src, dst, ksize)] and
    [cv::findContours(img, contours, _, RETR_EXTERNAL, CHAIN_APPROX_SIMPLE)]
    are taken as given, and so is [tuning_overlay], the drawing that
    [siftBlobs] does on the threshold image for the tuning window
    (grey to colour, the rectangle and the text).  [waitKey] is what the
    user does at the tuning window: the slider moves that HighGUI delivers
    while [cv::waitKey(1)] runs, which may depend on what the detector
    shows. *)
Variable blur : cv.Mat -> cv.Size -> cv.Mat.
Variable findContours : cv.Mat -> list (list cv.Point).
Variable tuning_overlay :
  cv.Mat -> bool -> cv.Rect -> oat.Position2D -> cv.Mat.
Variable waitKey : t -> list slider_move.

Definition applyThreshold : M t unit :=
  set ← gets last_image_set;
  if set : bool then
    this ← gets this_image;
    gray ← lift (cv.cvtColor_BGR2GRAY this);
    modify (set_this_image gray) ;;
    last ← gets last_image;
    diff ← lift (cv.absdiff gray last);
    modify (set_threshold_image diff) ;;
    T ← gets difference_intensity_threshold;
    modify (fun d => set_threshold_image
                       (cv.threshold (threshold_image d) T 255) d) ;;
    on ← gets blur_on;
    when on
      (modify (fun d => set_threshold_image
                          (blur (threshold_image d) (blur_size d)) d)) ;;
    modify (fun d => set_threshold_image
                       (cv.threshold (threshold_image d) T 255) d) ;;
    modify (fun d => set_last_image (cv.clone (this_image d)) d)
  else
    modify (fun d => set_threshold_image (cv.clone (this_image d)) d) ;;
    thr ← gets threshold_image;
    gray ← lift (cv.cvtColor_BGR2GRAY thr);
    modify (set_threshold_image gray) ;;
    modify (fun d => set_last_image (cv.clone (this_image d)) d) ;;
    last ← gets last_image;
    gray' ← lift (cv.cvtColor_BGR2GRAY last);
    modify (set_last_image gray') ;;
    modify (set_last_image_set true).

(** [position.x = x + 0.5 * width]: the right-hand side is computed in
    [double], where a sum of an [int] and half an [int] is exact (it is a
    multiple of 1/2 below 2 ^ 33, and a [double] has 53 bits); the
    assignment rounds it to the [float] member. *)
Definition centre (x width : Z) : cv.float := cv.to_float (2 * x + width) (-1).

Definition siftBlobs : M t unit :=
  thresh_cpy ← gets (fun d => cv.clone (threshold_image d));
  let contours := findContours thresh_cpy in
  modify (set_position_valid (0 <? length contours)%nat) ;;
  valid ← gets (fun d => oat.position_valid (object_position d));
  let objectBoundingRectangle :=
    if valid : bool
    then cv.boundingRect
           (default [] (contours !! (length contours - 1)%nat))
    else cv.mkRect 0 0 0 0 in
  when valid
    (modify (set_position
       (cv.mkPoint2f
          (centre (cv.rx objectBoundingRectangle)
                  (cv.rwidth objectBoundingRectangle))
          (centre (cv.ry objectBoundingRectangle)
                  (cv.rheight objectBoundingRectangle))))) ;;
  tuning ← gets tuning_on;
  when tuning
    (modify (fun d => set_threshold_image
               (tuning_overlay (threshold_image d) valid
                  objectBoundingRectangle (object_position d)) d)).

(** [imshow] only displays; [waitKey(1)] lets HighGUI deliver the slider
    moves, one after the other.  [destroyWindow] leaves the detector as it
    is. *)
Definition tune : M t unit :=
  tuning ← gets tuning_on;
  created ← gets tuning_windows_created;
  if tuning : bool then
    when (negb created) createTuningWindows ;;
    modify (fun d => foldl slide d (waitKey d))
  else if negb tuning && created then
    modify (set_tuning_windows_created false)
  else ret tt.

Definition detectPosition (frame : cv.Mat) : M t oat.Position2D :=
  modify (set_this_image frame) ;;
  applyThreshold ;;
  siftBlobs ;;
  tune ;;
  gets object_position.

End Detect.

Section Configure.
Variable parse_file : toml.parser toml.difference_table.

Definition blur_message (config_file config_key : string) : string :=
  "blur value in " +:+ config_key +:+ " in" +:+ config_file
    +:+ " must be > 0.".
Definition diff_threshold_message (config_file config_key : string)
  : string :=
  "diff_threshold value in " +:+ config_key +:+ " in" +:+ config_file
    +:+ " must be > 0.".
Definition no_configuration_message (config_file config_key : string)
  : string :=
  "No configuration named " +:+ config_key
    +:+ " was provided in the configuration file " +:+ config_file.

Definition configure (config_file config_key : string) : M t unit :=
  config ← lift (parse_file config_file);
  match config !! config_key with
  | Some this_config =>
      match toml.blur this_config with
      | Some v =>
          modify (set_blur_size (to_int v)) ;;
          size ← gets blur_size;
          when ((cv.height size <? 0)
                || negb (toml.is_value (toml.blur this_config)))
            (throw (runtime_error (blur_message config_file config_key)))
      | None => ret tt
      end ;;
      match toml.diff_threshold this_config with
      | Some v =>
          modify (set_difference_intensity_threshold (to_int v)) ;;
          T ← gets difference_intensity_threshold;
          when (T <? 0)
            (throw (runtime_error
                      (diff_threshold_message config_file config_key)))
      | None => ret tt
      end ;;
      match toml.tune this_config with
      | Some true =>
          modify (set_tuning_on true) ;;
          createTuningWindows
      | _ => ret tt
      end
  | None =>
      throw (runtime_error
               (no_configuration_message config_file config_key))
  end.
End Configure.

End DifferenceDetector2D.

(** ** The run loop (src/positiondetector/main.cpp and
       src/positioncombiner/main.cpp, [run])

    [quit] is written by the SIGINT handler at any time and read by the
    loop condition only.  [quit_at k] is the value the [k]-th evaluation of
    the loop condition reads (counting from 0); whatever happens to the flag
    during a call of [process] is seen by the next evaluation at the
    earliest.  The loop need not terminate, so [run] takes a bound on the
    number of condition evaluations and answers [None] when it is reached. *)

Section Run.
Context {St : Type}.
Variable process : M St bool.
Variable quit_at : nat -> bool.

(** [k] counts the iterations done so far. The result is the number of
    iterations at the normal exit of the loop, or the exception that
    left it. *)
Fixpoint run_from (fuel k : nat) (source_eof : bool) (s : St)
  : option (Result nat * St) :=
  match fuel with
  | O => None
  | S fuel' =>
      if negb (quit_at k) && negb source_eof then
        match process s with
        | (Ok eof, s') => run_from fuel' (S k) eof s'
        | (Throw e, s') => Some (Throw e, s')
        end
      else Some (Ok k, s)
  end.

(** Both globals are zero when [main] calls [run]. *)
Definition run (fuel : nat) (s : St) : option (Result nat * St) :=
  run_from fuel 0 false s.

(** [returns s eofs s']: successive calls of [process] from [s] return
    the values [eofs], none throws, and they end in [s']. *)
Inductive returns : St -> list bool -> St -> Prop :=
  | returns_nil s : returns s [] s
  | returns_cons s eof s1 eofs s' :
      process s = (Ok eof, s1) ->
      returns s1 eofs s' ->
      returns s (eof :: eofs) s'.
End Run.

(** ** The detector stage and its program (src/positiondetector/main.cpp) *)

Module Detector2D.

(** A detector, the frames its source still holds and the positions its
    sink has received. *)
Record stage : Type := mkStage {
  detector : DifferenceDetector2D.t;
  frame_source : list cv.Mat;
  position_sink : list oat.Position2D
}.

Section Process.
Variable detectPosition : cv.Mat -> M DifferenceDetector2D.t oat.Position2D.

(** Modelled from the spec: [Detector2D::process], declared in
    Detector2D.h, which is not among the sources.  One iteration acquires
    one frame from the source, transforms it with [detectPosition],
    publishes the position to the sink and returns whether the source
    has been exhausted.  An error raised during the iteration is caught
    here, at the call site of [detectPosition], and logged; the iteration
    falls back to an unchanged output (nothing is published, the sink
    keeps what it has) and returns like any other, so that the loop goes
    on. *)
Definition process : M stage bool :=
  fun s =>
    match frame_source s with
    | [] => (Ok true, s)
    | frame :: rest =>
        match detectPosition frame (detector s) with
        | (Ok pos, d) =>
            (Ok false, mkStage d rest (position_sink s ++ [pos]))
        | (Throw _, d) =>
            (Ok false, mkStage d rest (position_sink s))
        end
    end.
End Process.

End Detector2D.

Module posidet.

Section Main.
Variable blur : cv.Mat -> cv.Size -> cv.Mat.
Variable findContours : cv.Mat -> list (list cv.Point).
Variable tuning_overlay :
  cv.Mat -> bool -> cv.Rect -> oat.Position2D -> cv.Mat.
Variable waitKey :
  DifferenceDetector2D.t -> list DifferenceDetector2D.slider_move.
Variable parse_file : toml.parser toml.difference_table.
Variable quit_at : nat -> bool.

Definition process : M Detector2D.stage bool :=
  Detector2D.process
    (DifferenceDetector2D.detectPosition blur findContours tuning_overlay
       waitKey).

(** [main] for TYPE "diff", from the point where the detector has been
    created: the [try] block and its handlers.  [config] holds the
    configuration file and key when both were given.  Every handler
    prints the exception; the program then returns -1. *)
Definition main (config : option (string * string)) (fuel : nat)
    (s : Detector2D.stage) : option (Z * Detector2D.stage) :=
  let (configured, d) :=
    match config with
    | Some (config_file, config_key) =>
        DifferenceDetector2D.configure parse_file config_file config_key
          (Detector2D.detector s)
    | None => (Ok tt, Detector2D.detector s)
    end in
  let s := Detector2D.mkStage d (Detector2D.frame_source s)
             (Detector2D.position_sink s) in
  match configured with
  | Throw _ => Some (-1, s)
  | Ok _ =>
      match run process quit_at fuel s with
      | None => None
      | Some (Ok _, s') => Some (0, s')
      | Some (Throw _, s') => Some (-1, s')
      end
  end.
End Main.

End posidet.

(** ** Reference implementations of the operations taken as given

    The examples need concrete instances of [blur], [findContours],
    [tuning_overlay] and [waitKey]. *)

Module reference.

(** [cv::borderInterpolate(p, len, BORDER_REFLECT_101)] *)
Definition borderInterpolate (p len : Z) : Z :=
  if len =? 1 then 0
  else
    let period := 2 * (len - 1) in
    let q := p mod period in
    if q <? len then q else period - q.

(** Channel [ch] of the pixel in row [r] and column [c]. *)
Definition channel_at (m : cv.Mat) (r c : Z) (ch : nat) : Z :=
  nth ch (nth (Z.to_nat (r * cv.cols m + c)) (cv.data m) []) 0.

Definition Zsum (l : list Z) : Z := foldr Z.add 0 l.

(** [cvRound(s / k)]: to the nearest integer, halves to the even one. *)
Definition cvRound_div (s k : Z) : Z :=
  let q := s / k in
  let r := s mod k in
  if 2 * r <? k then q
  else if k <? 2 * r then q + 1
  else if Z.even q then q else q + 1.

Definition window_sum (m : cv.Mat) (ksize : cv.Size) (r c : Z) (ch : nat)
  : Z :=
  Zsum (i ← seqZ 0 (cv.height ksize);
        j ← seqZ 0 (cv.width ksize);
        [channel_at m
           (borderInterpolate (r + i - cv.height ksize / 2) (cv.rows m))
           (borderInterpolate (c + j - cv.width ksize / 2) (cv.cols m))
           ch]).

(** [cv::blur]: the normalised box filter with the anchor at the kernel
    centre and the default border. *)
Definition blur (src : cv.Mat) (ksize : cv.Size) : cv.Mat :=
  cv.mkMat (cv.rows src) (cv.cols src) (cv.channels src)
    (r ← seqZ 0 (cv.rows src);
     c ← seqZ 0 (cv.cols src);
     [(fun ch => cvRound_div (window_sum src ksize r c ch)
                   (cv.width ksize * cv.height ksize))
        <$> seq 0 (Z.to_nat (cv.channels src))]).

Definition interior (m : cv.Mat) (r c : Z) : bool :=
  (0 <? r) && (r <? cv.rows m - 1) && (0 <? c) && (c <? cv.cols m - 1).

(** Contours of a mask whose foreground pixels are isolated: every
    non-zero pixel off the one-pixel border is a contour of one point.
    On a mask with a single such pixel this is what [cv::findContours]
    returns. *)
Definition findContours (img : cv.Mat) : list (list cv.Point) :=
  r ← seqZ 0 (cv.rows img);
  c ← seqZ 0 (cv.cols img);
  if interior img r c && negb (channel_at img r c 0 =? 0)
  then [[cv.mkPoint c r]] else [].

(** No tuning window is open in the examples; nothing is drawn. *)
Definition tuning_overlay (img : cv.Mat) (valid : bool) (r : cv.Rect)
    (p : oat.Position2D) : cv.Mat := img.

(** Nobody touches the sliders. *)
Definition waitKey (d : DifferenceDetector2D.t)
  : list DifferenceDetector2D.slider_move := [].

(** A [rows] x [cols] colour frame that is black except for one pixel. *)
Definition spot_frame (rows cols r c : Z) (bgr : list Z) : cv.Mat :=
  cv.mkMat rows cols 3
    (i ← seqZ 0 rows; j ← seqZ 0 cols;
     [if (i =? r) && (j =? c) then bgr else [0; 0; 0]]).

End reference.

(** ** Inputs of the examples *)

Module examples.

(** A 3 x 3 colour frame, black but for a white pixel in the middle, and
    two black frames. *)
Definition white_spot : cv.Mat := reference.spot_frame 3 3 1 1 [255; 255; 255].
Definition black3 : cv.Mat := reference.spot_frame 3 3 1 1 [0; 0; 0].
Definition black4 : cv.Mat := reference.spot_frame 4 4 1 1 [0; 0; 0].

(** A configuration file whose table "bg" names a background image, on a
    file system where no image file can be read: [cv::imread] answers
    with an empty matrix. *)
Definition background_config : toml.parser toml.background_table :=
  fun _ => Ok {[ "bg" := toml.mkBackgroundTable (Some "missing.png") ]}.
Definition imread_unreadable : string -> Result cv.Mat :=
  fun _ => Ok cv.Mat_empty.

(** The detector as [main] creates it; the members that the constructor
    leaves to the class declaration start as threshold 0 and an invalid
    position at the origin. *)
Definition position0 : oat.Position2D :=
  oat.mkPosition2D (cv.mkPoint2f (cv.to_float 0 0) (cv.to_float 0 0)) false.
Definition detector0 : DifferenceDetector2D.t :=
  DifferenceDetector2D.new 0 position0 "raw" "pos".

(** A configuration file whose table "diff" is [blur = -1]. *)
Definition negative_blur_config : toml.parser toml.difference_table :=
  fun _ => Ok {[ "diff" := toml.mkDifferenceTable (Some (-1)) None None ]}.

(** SIGINT never arrives. *)
Definition never_quit : nat -> bool := fun _ => false.


(** Detection with the reference operations, and the detector after it
    has seen [white_spot], then [black4]. *)
Definition detect : cv.Mat -> M DifferenceDetector2D.t oat.Position2D :=
  DifferenceDetector2D.detectPosition reference.blur reference.findContours
    reference.tuning_overlay reference.waitKey.
Definition after_white_spot : DifferenceDetector2D.t :=
  snd (detect white_spot detector0).

(** The centre of the pixel in row 1, column 1. *)
Definition centre_1_1 : oat.Position2D :=
  oat.mkPosition2D
    (cv.mkPoint2f (cv.to_float 3 (-1)) (cv.to_float 3 (-1))) true.

(** The grey images of [white_spot] and [black3]. *)
Definition white_spot_gray : cv.Mat :=
  cv.mkMat 3 3 1 [[0]; [0]; [0]; [0]; [255]; [0]; [0]; [0]; [0]].
Definition black3_gray : cv.Mat :=
  cv.mkMat 3 3 1 [[0]; [0]; [0]; [0]; [0]; [0]; [0]; [0]; [0]].

(** The detector that has seen [white_spot], with threshold 100: with the
    2 x 2 blur of the constructor, and with the blur off. *)
Definition blurring : DifferenceDetector2D.t :=
  DifferenceDetector2D.set_difference_intensity_threshold 100
    after_white_spot.
Definition sharp : DifferenceDetector2D.t :=
  DifferenceDetector2D.set_blur_size 0 blurring.


(** The outline of a 10 x 10 square and a single point. *)
Definition square_contour : list cv.Point :=
  [cv.mkPoint 40 40; cv.mkPoint 40 49; cv.mkPoint 49 49; cv.mkPoint 49 40].
Definition point_contour : list cv.Point := [cv.mkPoint 5 5].

(** A source of four frames: its fifth acquisition reports exhaustion. *)
Definition four_frames : Detector2D.stage :=
  Detector2D.mkStage detector0 [black3; black3; black3; black3] [].

(** The detector of [main] with tuning switched on. *)
Definition tuned : DifferenceDetector2D.t :=
  DifferenceDetector2D.set_tuning_on true detector0.

(** That detector after it has seen [white_spot], so that its tuning
    window has been created, with tuning switched off again. *)
Definition tuning_ended : DifferenceDetector2D.t :=
  DifferenceDetector2D.set_tuning_on false (snd (detect white_spot tuned)).

(** During every call of [waitKey] the user moves the THRESH slider to 40
    and the BLUR slider to 0. *)
Definition sliding
  : DifferenceDetector2D.t -> list DifferenceDetector2D.slider_move :=
  fun _ => [DifferenceDetector2D.THRESH 40; DifferenceDetector2D.BLUR 0].

(** The detector that has seen [white_spot], with the THRESH slider at its
    upper end. *)
Definition blind : DifferenceDetector2D.t :=
  DifferenceDetector2D.set_difference_intensity_threshold 256
    after_white_spot.

(** Configuration files whose table "diff" is [blur = 5],
    [diff_threshold = 40], [tune = true], and [diff_threshold = -1],
    [tune = true]. *)
Definition tuning_config : toml.parser toml.difference_table :=
  fun _ =>
    Ok {[ "diff" := toml.mkDifferenceTable (Some 5) (Some 40) (Some true) ]}.
Definition negative_threshold_config : toml.parser toml.difference_table :=
  fun _ =>
    Ok {[ "diff" := toml.mkDifferenceTable None (Some (-1)) (Some true) ]}.

(** SIGINT arrives during the second iteration. *)
Definition quit_in_second : nat -> bool := fun k => (2 <=? k)%nat.

End examples.

(** ** Vocabulary of the properties *)

(** The absolute difference image of two images of one shape. *)
Definition difference_image (a b : cv.Mat) : cv.Mat :=
  cv.mkMat (cv.rows a) (cv.cols a) (cv.channels a)
    (zip_with (zip_with (fun x y => Z.max 0 (Z.min 255 (Z.abs (x - y)))))
       (cv.data a) (cv.data b)).

(** The mask [applyThreshold] leaves in [threshold_image], written as the
    source computes it: threshold, optional blur, threshold again. *)
Definition mask_of (blur : cv.Mat -> cv.Size -> cv.Mat)
    (d : DifferenceDetector2D.t) (diff : cv.Mat) : cv.Mat :=
  let T := DifferenceDetector2D.difference_intensity_threshold d in
  let fg := cv.threshold diff T 255 in
  cv.threshold
    (if DifferenceDetector2D.blur_on d
     then blur fg (DifferenceDetector2D.blur_size d) else fg)
    T 255.

(** What [siftBlobs] stores in [object_position]. *)
Definition sifted_position (findContours : cv.Mat -> list (list cv.Point))
    (d : DifferenceDetector2D.t) : oat.Position2D :=
  match last (findContours (DifferenceDetector2D.threshold_image d)) with
  | None =>
      oat.mkPosition2D
        (oat.position (DifferenceDetector2D.object_position d)) false
  | Some contour =>
      let r := cv.boundingRect contour in
      oat.mkPosition2D
        (cv.mkPoint2f
           (DifferenceDetector2D.centre (cv.rx r) (cv.rwidth r))
           (DifferenceDetector2D.centre (cv.ry r) (cv.rheight r)))
        true
  end.

(** Pixel [i] of a mask is foreground when its value is not zero. *)
Definition foreground (mask : cv.Mat) (i : nat) : Prop :=
  exists v, cv.value_at mask i = Some v /\ v <> 0.

(** [a] is nowhere brighter than [b]. *)
Definition mat_le (a b : cv.Mat) : Prop :=
  Forall2 (Forall2 Z.le) (cv.data a) (cv.data b).

(** What the properties need of [cv::blur]: every output value is an
    average of input values, so a darker image has a darker blur. *)
Definition blur_monotone (blur : cv.Mat -> cv.Size -> cv.Mat) : Prop :=
  forall ksize a b,
    cv.same_shape a b = true -> mat_le a b ->
    mat_le (blur a ksize) (blur b ksize).

(** Unfolding of the monad and of the detector's fields. *)
Ltac run_monad :=
  cbv [mbind M_bind bind mret M_ret ret lift gets modify when throw
       DifferenceDetector2D.createTuningWindows] in *.

Ltac fields :=
  cbn [DifferenceDetector2D.tuning_image_title
       DifferenceDetector2D.tuning_windows_created
       DifferenceDetector2D.last_image_set DifferenceDetector2D.tuning_on
       DifferenceDetector2D.blur_on DifferenceDetector2D.blur_size
       DifferenceDetector2D.difference_intensity_threshold
       DifferenceDetector2D.this_image DifferenceDetector2D.last_image
       DifferenceDetector2D.threshold_image
       DifferenceDetector2D.object_position
       DifferenceDetector2D.set_tuning_windows_created
       DifferenceDetector2D.set_last_image_set
       DifferenceDetector2D.set_tuning_on DifferenceDetector2D.set_blur_on
       DifferenceDetector2D.set_blur_size_field
       DifferenceDetector2D.set_difference_intensity_threshold
       DifferenceDetector2D.set_this_image DifferenceDetector2D.set_last_image
       DifferenceDetector2D.set_threshold_image
       DifferenceDetector2D.set_object_position
       DifferenceDetector2D.set_position_valid
       DifferenceDetector2D.set_position
       oat.position oat.position_valid] in *.

(** ** Command lines: the first [try] block of each [main]

    [boost::program_options] turns the command line into a variables map
    or throws an exception derived from [std::exception]; the programs are
    modelled from the map on.  A present option holds its value; a flag is
    present or not. *)

Module cli.

Inductive parsed (V : Type) : Type :=
  | Parsed (variable_map : V)
  | Failed (what : string).
Arguments Parsed {V} variable_map.
Arguments Failed {V} what.

(** Exactly one of the two is there: the test that the three programs with
    a configuration make on config-file and config-key. *)
Definition unpaired {A B} (a : option A) (b : option B) : bool :=
  (bool_decide (is_Some a) && negb (bool_decide (is_Some b)))
  || (negb (bool_decide (is_Some a)) && bool_decide (is_Some b)).

End cli.

(** *** posidet (src/positiondetector/main.cpp) *)

Module posidet_startup.

Record variables_map : Type := mkVariables {
  help : bool;
  version : bool;
  type : option string;
  source : option string;
  sink : option string;
  config_file : option string;
  config_key : option string
}.

(** [type_hash]; [type_hash[type]] is the null character for a name that
    is not a key. *)
Definition type_hash : gmap string ascii :=
  <["hsv" := "b"%char]> (<["diff" := "a"%char]> ∅).

Definition type_hash_at (type : string) : ascii :=
  default "000"%char (type_hash !! type).

(** What [main] does next: it returns, or it creates the detector of the
    given kind and enters its second [try] block. *)
Inductive detector_kind : Type := DifferenceDetector | HSVDetector.

Inductive outcome : Type :=
  | Exit (code : Z)
  | Create (kind : detector_kind) (source sink : string)
      (config : option (string * string)).

Definition startup (p : cli.parsed variables_map) : outcome :=
  match p with
  | cli.Failed _ => Exit (-1)
  | cli.Parsed vm =>
      if help vm then Exit 0
      else if version vm then Exit 0
      else
        match type vm with
        | None => Exit (-1)
        | Some type =>
            match source vm with
            | None => Exit (-1)
            | Some source =>
                match sink vm with
                | None => Exit (-1)
                | Some sink =>
                    if cli.unpaired (config_file vm) (config_key vm)
                    then Exit (-1)
                    else
                      let config :=
                        match config_file vm, config_key vm with
                        | Some file, Some key => Some (file, key)
                        | _, _ => None
                        end in
                      let c := type_hash_at type in
                      if decide (c = "a"%char)
                      then Create DifferenceDetector source sink config
                      else if decide (c = "b"%char)
                      then Create HSVDetector source sink config
                      else Exit (-1)
                end
            end
        end
  end.

End posidet_startup.

(** *** posicom (src/positioncombiner/main.cpp) *)

Module posicom_startup.

Record variables_map : Type := mkVariables {
  help : bool;
  version : bool;
  type : option string;
  sources : option (list string);   (* every positional name after TYPE *)
  sink : option string;             (* an explicit --sink *)
  config_file : option string;
  config_key : option string
}.

Definition type_hash : gmap string ascii := <["mean" := "a"%char]> ∅.

Definition type_hash_at (type : string) : ascii :=
  default "000"%char (type_hash !! type).

(** [main] returns, or it creates the [MeanPosition] combiner. *)
Inductive outcome : Type :=
  | Exit (code : Z)
  | Create (sources : list string) (sink : string)
      (config : option (string * string)).

Definition startup (p : cli.parsed variables_map) : outcome :=
  match p with
  | cli.Failed _ => Exit (-1)
  | cli.Parsed vm =>
      if help vm then Exit 0
      else if version vm then Exit 0
      else
        match type vm with
        | None => Exit (-1)
        | Some type =>
            match sources vm with
            | None => Exit (-1)
            | Some sources =>
                if (length sources <? 3)%nat then Exit (-1)
                else
                  (* without --sink the last name is the sink *)
                  let (sources, sink) :=
                    match sink vm with
                    | Some sink => (sources, sink)
                    | None =>
                        (removelast sources, List.last sources EmptyString)
                    end in
                  if cli.unpaired (config_file vm) (config_key vm)
                  then Exit (-1)
                  else
                    let config :=
                      match config_file vm, config_key vm with
                      | Some file, Some key => Some (file, key)
                      | _, _ => None
                      end in
                    if decide (type_hash_at type = "a"%char)
                    then Create sources sink config
                    else Exit (-1)
            end
        end
  end.

End posicom_startup.


(** ** The sliders of the tuning window
       (DifferenceDetector.cpp, [createTuningWindows] and
       [blurSliderChangedCallback])

    [createTuningWindows] binds the slider THRESH (0..256) to
    [difference_intensity_threshold] and the slider BLUR (0..50) to
    [blur_size.height], the latter with a callback.  When a slider is moved
    to [pos], [cv::createTrackbar] stores [pos] in the bound variable and
    then calls the callback, if there is one, with [pos]. *)

Module tuning_window.

Definition blurSliderChangedCallback (value : Z)
    (d : DifferenceDetector2D.t) : DifferenceDetector2D.t :=
  DifferenceDetector2D.set_blur_size value d.

Definition move_THRESH (pos : Z) (d : DifferenceDetector2D.t)
  : DifferenceDetector2D.t :=
  DifferenceDetector2D.set_difference_intensity_threshold pos d.

Definition move_BLUR (pos : Z) (d : DifferenceDetector2D.t)
  : DifferenceDetector2D.t :=
  blurSliderChangedCallback pos
    (DifferenceDetector2D.set_blur_size_field
       (cv.mkSize (cv.width (DifferenceDetector2D.blur_size d)) pos) d).

End tuning_window.

(** ** Further vocabulary *)

(** The settings of a detector, as opposed to its images and its result. *)
Definition settings (d : DifferenceDetector2D.t)
  : string * bool * bool * cv.Size * Z :=
  (DifferenceDetector2D.tuning_image_title d,
   DifferenceDetector2D.tuning_on d,
   DifferenceDetector2D.blur_on d,
   DifferenceDetector2D.blur_size d,
   DifferenceDetector2D.difference_intensity_threshold d).

(** When the blur is on, its kernel is a square of positive size. *)
Definition blur_kernel_ok (d : DifferenceDetector2D.t) : Prop :=
  DifferenceDetector2D.blur_on d = true ->
  0 < cv.width (DifferenceDetector2D.blur_size d)
  /\ cv.height (DifferenceDetector2D.blur_size d)
     = cv.width (DifferenceDetector2D.blur_size d).

(** An image without a single non-zero value. *)
Definition all_zero (m : cv.Mat) : Prop := Forall (Forall (eq 0)) (cv.data m).

(** Two more facts about the operations taken as given: the blur of a
    black image (with a kernel of positive size) is black, and a black
    image has no contour. *)
Definition blur_keeps_black (blur : cv.Mat -> cv.Size -> cv.Mat) : Prop :=
  forall ksize m,
    0 < cv.width ksize -> 0 < cv.height ksize ->
    all_zero m -> all_zero (blur m ksize).
Definition no_contour_in_black
    (findContours : cv.Mat -> list (list cv.Point)) : Prop :=
  forall m, all_zero m -> findContours m = [].

(** A well-formed 8-bit image: as many pixels as the size says, as many
    values per pixel as there are channels, every value in 0..255. *)
Definition valid_8u (m : cv.Mat) : Prop :=
  length (cv.data m) = Z.to_nat (cv.rows m * cv.cols m)
  /\ Forall (fun p => length p = Z.to_nat (cv.channels m)
                      /\ Forall (fun v => 0 <= v <= 255) p) (cv.data m).

(** The TYPE argument that selects a kind of detector. *)
Definition posidet_type_name (kind : posidet_startup.detector_kind) : string :=
  match kind with
  | posidet_startup.DifferenceDetector => "diff"
  | posidet_startup.HSVDetector => "hsv"
  end.

(** [config] holds file and key when both options are there, and nothing
    when neither is. *)
Definition config_given (file key : option string)
    (config : option (string * string)) : Prop :=
  (exists f k, file = Some f /\ key = Some k /\ config = Some (f, k))
  \/ (file = None /\ key = None /\ config = None).

(** A member function keeps a property of the object, whether it returns
    or throws. *)
Definition keeps {S A} (P : S -> Prop) (m : M S A) : Prop :=
  forall s, P s -> P (snd (m s)).

(** Successive calls of [BackgroundSubtractor::filter], one per frame: the
    frames returned and the state left. *)
Fixpoint filter_frames (frames : list cv.Mat) (b : BackgroundSubtractor.t)
  : list cv.Mat * BackgroundSubtractor.t :=
  match frames with
  | [] => ([], b)
  | frame :: rest =>
      let (out, b1) := BackgroundSubtractor.filter frame b in
      let (outs, b2) := filter_frames rest b1 in
      (out :: outs, b2)
  end.

(** * Properties *)

(** ** BackgroundSubtractor *)

Lemma same_shape_refl (m : cv.Mat) : cv.same_shape m m = true.
Proof. unfold cv.same_shape. rewrite !Z.eqb_refl. reflexivity. Qed.

Lemma same_shape_mk (m : cv.Mat) (d : list (list Z)) :
  cv.same_shape (cv.mkMat (cv.rows m) (cv.cols m) (cv.channels m) d) m = true.
Proof. unfold cv.same_shape. simpl. rewrite !Z.eqb_refl. reflexivity. Qed.

Lemma saturate_cast_uchar_range (v : Z) :
  0 <= cv.saturate_cast_uchar v <= 255.
Proof. unfold cv.saturate_cast_uchar. lia. Qed.

Lemma zip_with_Forall_range {A B C} (f : A -> B -> C) (P : C -> Prop)
    (l : list A) (k : list B) :
  (forall a b, P (f a b)) -> Forall P (zip_with f l k).
Proof.
  intros Hf. revert k.
  induction l as [|a l IH]; intros [|b k]; simpl; constructor; auto.
Qed.

Lemma zip_with_diag_zero (f : Z -> Z -> Z) (l : list Z) :
  (forall a, f a a = 0) -> Forall (eq 0) (zip_with f l l).
Proof.
  intros Hf. induction l as [|a l IH]; simpl; constructor; auto.
Qed.

Lemma sub_sat_diag (v : Z) : cv.sub_sat v v = 0.
Proof. unfold cv.sub_sat, cv.saturate_cast_uchar. lia. Qed.

Lemma arithm_op_same_shape (f : Z -> Z -> Z) (a b : cv.Mat) :
  cv.same_shape a b = true ->
  cv.arithm_op f a b =
    Ok (cv.mkMat (cv.rows a) (cv.cols a) (cv.channels a)
          (zip_with (zip_with f) (cv.data a) (cv.data b))).
Proof. intros H. unfold cv.arithm_op. rewrite H. reflexivity. Qed.

Lemma arithm_op_mismatch (f : Z -> Z -> Z) (a b : cv.Mat) :
  cv.same_shape a b = false -> cv.arithm_op f a b = Throw cv.unmatched_sizes.
Proof. intros H. unfold cv.arithm_op. rewrite H. reflexivity. Qed.

(** C5. The first frame given to a new filter is returned unchanged and a
    copy of it becomes the background.  With the background set, a frame of
    the background's shape is answered by [frame - background], every
    channel value being [x - y] clipped to 0..255, and the background
    itself is answered by an image of zeros; the stored background stays as
    it is. *)
Theorem filter_first_frame_then_saturating_difference
    (source_name sink_name : string) (first : cv.Mat)
    (b : BackgroundSubtractor.t) (frame : cv.Mat) :
  BackgroundSubtractor.background_set b = true ->
  cv.same_shape frame (BackgroundSubtractor.background_img b) = true ->
  BackgroundSubtractor.filter first
      (BackgroundSubtractor.new source_name sink_name)
    = (first, BackgroundSubtractor.mk true first)
  /\ (exists out,
        BackgroundSubtractor.filter frame b = (out, b)
        /\ cv.same_shape out frame = true
        /\ cv.data out =
             zip_with (zip_with (fun x y => Z.max 0 (Z.min 255 (x - y))))
               (cv.data frame)
               (cv.data (BackgroundSubtractor.background_img b))
        /\ Forall (Forall (fun v => 0 <= v <= 255)) (cv.data out))
  /\ (exists zero,
        BackgroundSubtractor.filter (BackgroundSubtractor.background_img b) b
          = (zero, b)
        /\ cv.same_shape zero (BackgroundSubtractor.background_img b) = true
        /\ Forall (Forall (eq 0)) (cv.data zero)).
Proof.
  intros Hset Hshape. split; [reflexivity|]. split.
  - eexists. unfold BackgroundSubtractor.filter, cv.subtract.
    rewrite Hset, (arithm_op_same_shape _ _ _ Hshape).
    split; [reflexivity|]. split; [apply same_shape_mk|].
    split; [reflexivity|]. simpl.
    apply zip_with_Forall_range. intros p q.
    apply zip_with_Forall_range. intros x y.
    apply saturate_cast_uchar_range.
  - eexists. unfold BackgroundSubtractor.filter, cv.subtract.
    rewrite Hset, (arithm_op_same_shape _ _ _ (same_shape_refl _)).
    split; [reflexivity|]. split; [apply same_shape_mk|]. simpl.
    induction (cv.data (BackgroundSubtractor.background_img b)) as [|p l IH];
      simpl; constructor; auto.
    apply zip_with_diag_zero, sub_sat_diag.
Qed.

(** The theorem at a 1 x 2 grey background [10; 200] and the frame
    [30; 100]: the difference is [20; 0]. *)
Lemma filter_first_frame_then_saturating_difference_witness :
  cv.same_shape (cv.mkMat 1 2 1 [[30]; [100]]) (cv.mkMat 1 2 1 [[10]; [200]])
    = true
  /\ exists out,
       BackgroundSubtractor.filter (cv.mkMat 1 2 1 [[30]; [100]])
         (BackgroundSubtractor.mk true (cv.mkMat 1 2 1 [[10]; [200]]))
       = (out, BackgroundSubtractor.mk true (cv.mkMat 1 2 1 [[10]; [200]]))
       /\ cv.data out = [[20]; [0]].
Proof.
  split; [reflexivity|].
  destruct (filter_first_frame_then_saturating_difference
              "raw" "sub" (cv.mkMat 1 2 1 [[10]; [200]])
              (BackgroundSubtractor.mk true (cv.mkMat 1 2 1 [[10]; [200]]))
              (cv.mkMat 1 2 1 [[30]; [100]]) eq_refl eq_refl)
    as (_ & (out & Hf & _ & Hd & _) & _).
  exists out. split; [exact Hf|]. rewrite Hd. reflexivity.
Defined.

(** A frame that does not have the background's shape: the subtraction
    throws, the exception is caught and the frame is returned as it came. *)
Lemma filter_passes_mismatched_frame (b : BackgroundSubtractor.t)
    (frame : cv.Mat) :
  BackgroundSubtractor.background_set b = true ->
  cv.same_shape frame (BackgroundSubtractor.background_img b) = false ->
  BackgroundSubtractor.filter frame b = (frame, b).
Proof.
  intros Hset Hshape. unfold BackgroundSubtractor.filter, cv.subtract.
  rewrite Hset, (arithm_op_mismatch _ _ _ Hshape). reflexivity.
Qed.

(** When [cv::imread] does throw, [configure] leaves the background unset
    and the first frame becomes the background. *)
Lemma configure_imread_throws
    (parse_file : toml.parser toml.background_table)
    (imread : string -> Result cv.Mat)
    (config_file config_key : string)
    (config : gmap string toml.background_table)
    (this_config : toml.background_table) (path msg : string)
    (frame : cv.Mat) :
  parse_file config_file = Ok config ->
  config !! config_key = Some this_config ->
  toml.background this_config = Some path ->
  imread path = Throw (cv_Exception msg) ->
  BackgroundSubtractor.configure parse_file imread config_file config_key
      (BackgroundSubtractor.new "raw" "sub")
    = (BackgroundSubtractor.Returned, BackgroundSubtractor.new "raw" "sub")
  /\ BackgroundSubtractor.filter frame (BackgroundSubtractor.new "raw" "sub")
     = (frame, BackgroundSubtractor.mk true frame).
Proof.
  intros Hp Hk Hb Hi. split; [|reflexivity].
  unfold BackgroundSubtractor.configure. rewrite Hp, Hk, Hb, Hi. reflexivity.
Qed.

(** C4 (the code departs from the claim).  The configured background image
    cannot be read: [cv::imread] reports that by an empty matrix, not by an
    exception, so [configure] installs the empty matrix and sets
    [background_set].  The filter then never adopts a frame as background:
    the subtraction fails on every frame and the frame is passed through. *)
Theorem configure_installs_unreadable_background :
  BackgroundSubtractor.configure examples.background_config
      examples.imread_unreadable "config.toml" "bg"
      (BackgroundSubtractor.new "raw" "sub")
    = (BackgroundSubtractor.Returned,
       BackgroundSubtractor.mk true cv.Mat_empty)
  /\ BackgroundSubtractor.filter examples.white_spot
       (BackgroundSubtractor.mk true cv.Mat_empty)
     = (examples.white_spot, BackgroundSubtractor.mk true cv.Mat_empty)
  /\ BackgroundSubtractor.filter examples.black3
       (BackgroundSubtractor.mk true cv.Mat_empty)
     = (examples.black3, BackgroundSubtractor.mk true cv.Mat_empty).
Proof.
  split; [|split; reflexivity].
  unfold BackgroundSubtractor.configure, examples.background_config.
  rewrite lookup_singleton_eq. reflexivity.
Qed.

(** ** DifferenceDetector2D: configuration *)

Lemma to_int_id (z : Z) : - 2 ^ 31 <= z < 2 ^ 31 -> to_int z = z.
Proof.
  intros H. unfold to_int.
  rewrite Z.mod_small by lia. lia.
Qed.

(** C2 (the code departs from the claim).  With [blur = -1] in the table,
    [configure] returns normally: [set_blur_size] ignores the value apart
    from switching the blur off, so the stored kernel height stays 2 and the
    test [blur_size.height < 0] fails.  [main] then enters the run loop,
    handles the frame of the source and exits with 0. *)
Theorem configure_accepts_negative_blur :
  DifferenceDetector2D.configure examples.negative_blur_config
      "config.toml" "diff" examples.detector0
    = (Ok tt, DifferenceDetector2D.set_blur_on false examples.detector0)
  /\ DifferenceDetector2D.blur_size
       (DifferenceDetector2D.set_blur_on false examples.detector0)
     = cv.mkSize 2 2
  /\ exists s,
       posidet.main reference.blur reference.findContours
         reference.tuning_overlay reference.waitKey
         examples.negative_blur_config
         examples.never_quit (Some ("config.toml", "diff")) 3
         (Detector2D.mkStage examples.detector0 [examples.white_spot] [])
       = Some (0, s)
       /\ length (Detector2D.position_sink s) = 1%nat.
Proof.
  assert (Hc : DifferenceDetector2D.configure examples.negative_blur_config
                 "config.toml" "diff" examples.detector0
               = (Ok tt,
                  DifferenceDetector2D.set_blur_on false examples.detector0)).
  { unfold DifferenceDetector2D.configure, examples.negative_blur_config.
    run_monad. rewrite lookup_singleton_eq. reflexivity. }
  split; [exact Hc|]. split; [reflexivity|].
  cbv beta iota delta [posidet.main Detector2D.detector
                       Detector2D.frame_source Detector2D.position_sink].
  rewrite Hc.
  eexists. split; [vm_compute; reflexivity|]. reflexivity.
Qed.

(** A negative [diff_threshold] is refused: [configure] throws after it
    has stored the value. *)
Lemma configure_refuses_negative_diff_threshold
    (parse_file : toml.parser toml.difference_table)
    (config_file config_key : string)
    (config : gmap string toml.difference_table)
    (this_config : toml.difference_table) (v : Z) :
  parse_file config_file = Ok config ->
  config !! config_key = Some this_config ->
  toml.blur this_config = None ->
  toml.diff_threshold this_config = Some v ->
  - 2 ^ 31 <= v < 0 ->
  DifferenceDetector2D.configure parse_file config_file config_key
      examples.detector0
    = (Throw (runtime_error
                (DifferenceDetector2D.diff_threshold_message
                   config_file config_key)),
       DifferenceDetector2D.set_difference_intensity_threshold v
         examples.detector0).
Proof.
  intros Hp Hk Hb Hd Hv. unfold DifferenceDetector2D.configure. run_monad.
  rewrite Hp, Hk, Hb, Hd, to_int_id by lia. simpl.
  destruct (v <? 0) eqn:E; [reflexivity|]. apply Z.ltb_ge in E. lia.
Qed.

Lemma configure_without_blur
    (parse_file : toml.parser toml.difference_table)
    (config_file config_key : string) (d : DifferenceDetector2D.t) :
  (forall config this_config,
      parse_file config_file = Ok config ->
      config !! config_key = Some this_config ->
      toml.blur this_config = None) ->
  DifferenceDetector2D.blur_on
    (snd (DifferenceDetector2D.configure parse_file config_file config_key d))
    = DifferenceDetector2D.blur_on d
  /\ DifferenceDetector2D.blur_size
       (snd (DifferenceDetector2D.configure parse_file config_file
               config_key d))
     = DifferenceDetector2D.blur_size d.
Proof.
  intros Hblur. unfold DifferenceDetector2D.configure. run_monad.
  destruct (parse_file config_file) as [config|e] eqn:Hp; [|auto].
  destruct (config !! config_key) as [this_config|] eqn:Hk; [|auto].
  rewrite (Hblur _ _ eq_refl Hk).
  destruct (toml.diff_threshold this_config) as [v|]; simpl.
  - destruct (to_int v <? 0); simpl; [auto|].
    destruct (toml.tune this_config) as [[|]|]; simpl; auto.
  - destruct (toml.tune this_config) as [[|]|]; simpl; auto.
Qed.

(** C10. A new detector has the blur on with a 2 x 2 kernel, and so has a
    detector configured from a table without the key [blur] (or not
    configured at all).  [set_blur_size value] switches the blur on exactly
    when [value > 0], then with a [value] x [value] kernel; for
    [value <= 0] it switches the blur off and keeps the stored size. *)
Theorem blur_default_and_set_blur_size
    (threshold0 : Z) (position0 : oat.Position2D)
    (image_source_name position_sink_name : string)
    (parse_file : toml.parser toml.difference_table)
    (config_file config_key : string)
    (value : Z) (d : DifferenceDetector2D.t) :
  let d0 := DifferenceDetector2D.new threshold0 position0
              image_source_name position_sink_name in
  let d1 := snd (DifferenceDetector2D.configure parse_file config_file
                   config_key d0) in
  (DifferenceDetector2D.blur_on d0 = true
   /\ DifferenceDetector2D.blur_size d0 = cv.mkSize 2 2)
  /\ ((forall config this_config,
          parse_file config_file = Ok config ->
          config !! config_key = Some this_config ->
          toml.blur this_config = None) ->
      DifferenceDetector2D.blur_on d1 = true
      /\ DifferenceDetector2D.blur_size d1 = cv.mkSize 2 2)
  /\ (DifferenceDetector2D.blur_on (DifferenceDetector2D.set_blur_size value d)
        = true <-> 0 < value)
  /\ (0 < value ->
      DifferenceDetector2D.blur_size (DifferenceDetector2D.set_blur_size value d)
        = cv.mkSize value value)
  /\ (value <= 0 ->
      DifferenceDetector2D.blur_on (DifferenceDetector2D.set_blur_size value d)
        = false
      /\ DifferenceDetector2D.blur_size
           (DifferenceDetector2D.set_blur_size value d)
         = DifferenceDetector2D.blur_size d).
Proof.
  intros d0 d1. split; [split; reflexivity|]. split.
  { intros Hblur.
    destruct (configure_without_blur parse_file config_file config_key d0 Hblur)
      as [Hon Hsize].
    subst d1. rewrite Hon, Hsize. split; reflexivity. }
  unfold DifferenceDetector2D.set_blur_size.
  destruct (0 <? value) eqn:E.
  - apply Z.ltb_lt in E. simpl.
    repeat split; intros; try lia; auto.
  - apply Z.ltb_ge in E. simpl.
    repeat split; intros; try lia; try discriminate; auto.
Qed.

(** The theorem at a table that only sets [diff_threshold = 20], and at
    [set_blur_size 5] and [set_blur_size 0]. *)
Lemma blur_default_and_set_blur_size_witness :
  let parse_file : toml.parser toml.difference_table :=
    fun _ => Ok {[ "diff" := toml.mkDifferenceTable None (Some 20) None ]} in
  let d1 := snd (DifferenceDetector2D.configure parse_file "config.toml"
                   "diff" examples.detector0) in
  (DifferenceDetector2D.blur_on d1 = true
   /\ DifferenceDetector2D.blur_size d1 = cv.mkSize 2 2)
  /\ DifferenceDetector2D.blur_size
       (DifferenceDetector2D.set_blur_size 5 examples.detector0)
     = cv.mkSize 5 5
  /\ DifferenceDetector2D.blur_on
       (DifferenceDetector2D.set_blur_size 0 examples.detector0) = false.
Proof.
  intros parse_file d1.
  destruct (blur_default_and_set_blur_size 0 examples.position0 "raw" "pos"
              parse_file "config.toml" "diff" 5 examples.detector0)
    as (_ & Hcfg & _ & Hpos & _).
  destruct (blur_default_and_set_blur_size 0 examples.position0 "raw" "pos"
              parse_file "config.toml" "diff" 0 examples.detector0)
    as (_ & _ & _ & _ & Hneg).
  split; [|split].
  - apply Hcfg. intros config this_config Hp Hk.
    injection Hp as <-.
    apply lookup_singleton_Some in Hk as [_ <-]. reflexivity.
  - apply Hpos. lia.
  - apply Hneg. lia.
Defined.

(** ** DifferenceDetector2D: detection *)

(** Slider moves change the threshold, the kernel size and the blur flag,
    and nothing else. *)
Lemma slides_keep (moves : list DifferenceDetector2D.slider_move)
    (d : DifferenceDetector2D.t) :
  let d' := foldl DifferenceDetector2D.slide d moves in
  DifferenceDetector2D.object_position d'
    = DifferenceDetector2D.object_position d
  /\ DifferenceDetector2D.last_image d' = DifferenceDetector2D.last_image d
  /\ DifferenceDetector2D.last_image_set d'
     = DifferenceDetector2D.last_image_set d
  /\ DifferenceDetector2D.tuning_on d' = DifferenceDetector2D.tuning_on d
  /\ DifferenceDetector2D.tuning_windows_created d'
     = DifferenceDetector2D.tuning_windows_created d
  /\ DifferenceDetector2D.tuning_image_title d'
     = DifferenceDetector2D.tuning_image_title d.
Proof.
  revert d. induction moves as [|move moves IH]; intros d.
  - repeat split; reflexivity.
  - cbn [foldl]. cbv zeta in IH |- *.
    destruct (IH (DifferenceDetector2D.slide d move))
      as (-> & -> & -> & -> & -> & ->).
    destruct d as [title created lset ton bon bsize T this last thr pos].
    destruct move as [pos'|pos']; cbn;
      unfold DifferenceDetector2D.blurSliderChangedCallback,
        DifferenceDetector2D.set_blur_size;
      try destruct (0 <? pos'); repeat split; reflexivity.
Qed.

Section DetectProperties.
Variable blur : cv.Mat -> cv.Size -> cv.Mat.
Variable findContours : cv.Mat -> list (list cv.Point).
Variable tuning_overlay :
  cv.Mat -> bool -> cv.Rect -> oat.Position2D -> cv.Mat.
Variable waitKey :
  DifferenceDetector2D.t -> list DifferenceDetector2D.slider_move.

#[local] Abbreviation applyThreshold :=
  (DifferenceDetector2D.applyThreshold blur).
#[local] Abbreviation siftBlobs :=
  (DifferenceDetector2D.siftBlobs findContours tuning_overlay).
#[local] Abbreviation tune := (DifferenceDetector2D.tune waitKey).
#[local] Abbreviation detectPosition :=
  (DifferenceDetector2D.detectPosition blur findContours tuning_overlay
     waitKey).

Lemma applyThreshold_history (d : DifferenceDetector2D.t) (gray : cv.Mat) :
  DifferenceDetector2D.last_image_set d = true ->
  cv.cvtColor_BGR2GRAY (DifferenceDetector2D.this_image d) = Ok gray ->
  cv.same_shape gray (DifferenceDetector2D.last_image d) = true ->
  applyThreshold d =
    (Ok tt,
     DifferenceDetector2D.set_last_image gray
       (DifferenceDetector2D.set_threshold_image
          (mask_of blur d
             (difference_image gray (DifferenceDetector2D.last_image d)))
          (DifferenceDetector2D.set_this_image gray d))).
Proof.
  intros Hset Hgray Hshape.
  unfold DifferenceDetector2D.applyThreshold. run_monad.
  rewrite Hset, Hgray. cbn [DifferenceDetector2D.last_image
    DifferenceDetector2D.set_this_image].
  unfold cv.absdiff. rewrite (arithm_op_same_shape _ _ _ Hshape).
  unfold mask_of, difference_image.
  destruct d as [title created lset ton bon bsize T this last thr pos].
  cbn. destruct bon; reflexivity.
Qed.

Lemma applyThreshold_first (d : DifferenceDetector2D.t) (gray : cv.Mat) :
  DifferenceDetector2D.last_image_set d = false ->
  cv.cvtColor_BGR2GRAY (DifferenceDetector2D.this_image d) = Ok gray ->
  applyThreshold d =
    (Ok tt,
     DifferenceDetector2D.set_last_image_set true
       (DifferenceDetector2D.set_last_image gray
          (DifferenceDetector2D.set_threshold_image gray d))).
Proof.
  intros Hset Hgray.
  unfold DifferenceDetector2D.applyThreshold. run_monad.
  rewrite Hset.
  destruct d as [title created lset ton bon bsize T this last thr pos].
  fields. subst lset. cbv [cv.clone]. fields.
  rewrite Hgray. reflexivity.
Qed.

Lemma last_at_size_minus_1 {A} (l : list A) :
  l !! (length l - 1)%nat = last l.
Proof. rewrite last_lookup. f_equal. lia. Qed.

Lemma siftBlobs_spec (d : DifferenceDetector2D.t) :
  exists d',
    siftBlobs d = (Ok tt, d')
    /\ DifferenceDetector2D.object_position d' = sifted_position findContours d
    /\ DifferenceDetector2D.last_image d' = DifferenceDetector2D.last_image d
    /\ DifferenceDetector2D.last_image_set d'
       = DifferenceDetector2D.last_image_set d
    /\ DifferenceDetector2D.tuning_on d' = DifferenceDetector2D.tuning_on d
    /\ DifferenceDetector2D.tuning_windows_created d'
       = DifferenceDetector2D.tuning_windows_created d.
Proof.
  unfold DifferenceDetector2D.siftBlobs, sifted_position. run_monad.
  unfold cv.clone.
  rewrite <- (last_at_size_minus_1
                (findContours (DifferenceDetector2D.threshold_image d))).
  destruct d as [title created lset ton bon bsize T this last thr pos].
  cbn.
  destruct (findContours thr) as [|c cs] eqn:Hc; cbn.
  - destruct ton; eexists; cbn; repeat split; reflexivity.
  - replace (length cs - 0)%nat with (length cs) by lia.
    destruct ((c :: cs) !! length cs) as [contour|] eqn:Hl.
    + destruct ton; eexists; cbn; repeat split; reflexivity.
    + apply lookup_ge_None in Hl. simpl in Hl. lia.
Qed.

Lemma tune_spec (d : DifferenceDetector2D.t) :
  exists d',
    tune d = (Ok tt, d')
    /\ DifferenceDetector2D.object_position d'
       = DifferenceDetector2D.object_position d
    /\ DifferenceDetector2D.last_image d' = DifferenceDetector2D.last_image d
    /\ DifferenceDetector2D.last_image_set d'
       = DifferenceDetector2D.last_image_set d.
Proof.
  unfold DifferenceDetector2D.tune. run_monad.
  unfold DifferenceDetector2D.createTuningWindows. run_monad.
  destruct d as [title created lset ton bon bsize T this last thr pos].
  cbn. destruct ton, created; cbn; eexists; (split; [reflexivity|]);
    try (repeat split; reflexivity).
  all: match goal with
       | |- context [foldl DifferenceDetector2D.slide ?d ?moves] =>
           destruct (slides_keep moves d) as (-> & -> & -> & _)
       end; repeat split; reflexivity.
Qed.

(** [detectPosition] once [applyThreshold] has returned. *)
Lemma detectPosition_after_threshold
    (frame : cv.Mat) (d d1 : DifferenceDetector2D.t) :
  applyThreshold (DifferenceDetector2D.set_this_image frame d) = (Ok tt, d1) ->
  exists d',
    detectPosition frame d = (Ok (sifted_position findContours d1), d')
    /\ DifferenceDetector2D.object_position d'
       = sifted_position findContours d1
    /\ DifferenceDetector2D.last_image d' = DifferenceDetector2D.last_image d1
    /\ DifferenceDetector2D.last_image_set d'
       = DifferenceDetector2D.last_image_set d1.
Proof.
  intros Hthr.
  destruct (siftBlobs_spec d1) as (d2 & Hs & Hpos & Hl & Hls & _).
  destruct (tune_spec d2) as (d3 & Ht & Hpos3 & Hl3 & Hls3).
  exists d3. unfold DifferenceDetector2D.detectPosition.
  cbv [mbind M_bind bind modify gets]. rewrite Hthr, Hs, Ht.
  rewrite Hpos3, Hpos, Hl3, Hl, Hls3, Hls. repeat split; reflexivity.
Qed.

(** [detectPosition] when [applyThreshold] throws: the exception leaves
    [detectPosition], and neither [siftBlobs] nor [tune] runs. *)
Lemma detectPosition_threshold_throws
    (frame : cv.Mat) (d d1 : DifferenceDetector2D.t) (e : exn) :
  applyThreshold (DifferenceDetector2D.set_this_image frame d) = (Throw e, d1) ->
  detectPosition frame d = (Throw e, d1).
Proof.
  intros Hthr. unfold DifferenceDetector2D.detectPosition.
  cbv [mbind M_bind bind modify gets]. rewrite Hthr. reflexivity.
Qed.



End DetectProperties.

(** ** The run loop *)

Section RunProperties.
Context {St : Type}.
Variable process : M St bool.
Variable quit_at : nat -> bool.

(** Iterations that neither report exhaustion nor are preceded by a
    quit request are simply performed. *)
Lemma run_from_returns (s s' : St) (eofs : list bool) :
  returns process s eofs s' ->
  forall fuel k,
    Forall (eq false) eofs ->
    (forall i, (i < length eofs)%nat -> quit_at (k + i) = false) ->
    run_from process quit_at (length eofs + fuel) k false s
      = run_from process quit_at fuel (k + length eofs) false s'.
Proof.
  induction 1 as [s|s eof s1 eofs s' Hcall Hrest IH]; intros fuel k Hall Hquit.
  - simpl. f_equal. lia.
  - inversion Hall as [|? ? <- Hall']; subst.
    cbn [length Nat.add run_from].
    rewrite <- (Nat.add_0_r k) at 1. rewrite (Hquit 0%nat) by (simpl; lia).
    cbn [negb andb]. rewrite Hcall, IH; [f_equal; simpl; lia|exact Hall'|].
    intros i Hi. replace (S k + i)%nat with (k + S i)%nat by lia.
    apply Hquit. simpl. lia.
Qed.

Lemma run_from_stops (s s' : St) (eofs : list bool) :
  returns process s eofs s' ->
  forall fuel k,
    (forall i eof, eofs !! i = Some eof -> (S i < length eofs)%nat ->
                   eof = false) ->
    (forall i, (i < length eofs)%nat -> quit_at (k + i) = false) ->
    quit_at (k + length eofs) = true \/ last eofs = Some true ->
    (length eofs < fuel)%nat ->
    run_from process quit_at fuel k false s
      = Some (Ok (k + length eofs)%nat, s').
Proof.
  induction 1 as [s|s eof s1 eofs s' Hcall Hrest IH];
    intros fuel k Hfalse Hquit Hstop Hfuel.
  - destruct fuel as [|fuel]; [simpl in Hfuel; lia|].
    destruct Hstop as [Hq|Hl]; [|discriminate Hl].
    simpl in *. rewrite Nat.add_0_r in *. rewrite Hq. reflexivity.
  - destruct fuel as [|fuel]; [simpl in Hfuel; lia|].
    cbn [run_from]. rewrite <- (Nat.add_0_r k) at 1.
    rewrite (Hquit 0%nat) by (simpl; lia). cbn [negb andb]. rewrite Hcall.
    destruct eofs as [|eof' eofs].
    + inversion Hrest; subst.
      destruct fuel as [|fuel]; [simpl in Hfuel; lia|].
      cbn [run_from length].
      replace (k + 1)%nat with (S k) in * by lia.
      assert (Hc : negb (quit_at (S k)) && negb eof = false).
      { destruct Hstop as [Hq|Hl].
        - cbn [length] in Hq. replace (k + 1)%nat with (S k) in Hq by lia.
          rewrite Hq. reflexivity.
        - injection Hl as ->. apply andb_false_r. }
      rewrite Hc. reflexivity.
    + assert (eof = false) as ->
        by (apply (Hfalse 0%nat); [reflexivity|simpl; lia]).
      rewrite (IH fuel (S k)).
      * f_equal. f_equal. f_equal. simpl. lia.
      * intros i e Hi Hlen. apply (Hfalse (S i)); [exact Hi|simpl in *; lia].
      * intros i Hi. replace (S k + i)%nat with (k + S i)%nat by lia.
        apply Hquit. simpl in *. lia.
      * destruct Hstop as [Hq|Hl].
        -- left. rewrite <- Hq. f_equal. simpl. lia.
        -- right. exact Hl.
      * simpl in *. lia.
Qed.

(** Conversely, a normal exit of the loop after [n] iterations has these
    two causes only. *)
Lemma run_from_exit (fuel : nat) :
  forall k source_eof s n s',
    run_from process quit_at fuel k source_eof s = Some (Ok n, s') ->
    exists eofs,
      returns process s eofs s'
      /\ n = (k + length eofs)%nat
      /\ (forall i, (i < length eofs)%nat -> quit_at (k + i) = false)
      /\ (forall i eof, (source_eof :: eofs) !! i = Some eof ->
                        (i < length eofs)%nat -> eof = false)
      /\ (quit_at n = true \/ last (source_eof :: eofs) = Some true).
Proof.
  induction fuel as [|fuel IH]; intros k source_eof s n s' Hrun;
    [discriminate Hrun|].
  cbn [run_from] in Hrun.
  destruct (negb (quit_at k) && negb source_eof) eqn:Hcond.
  - apply andb_true_iff in Hcond as [Hq He].
    apply negb_true_iff in Hq. apply negb_true_iff in He. subst source_eof.
    destruct (process s) as [[eof|e] s1] eqn:Hcall; [|discriminate Hrun].
    destruct (IH _ _ _ _ _ Hrun) as (eofs & Hret & Hn & Hquit & Hfalse & Hstop).
    exists (eof :: eofs). split; [econstructor; eassumption|].
    split; [simpl; lia|]. split; [|split].
    + intros [|i] Hi; [rewrite Nat.add_0_r; exact Hq|].
      replace (k + S i)%nat with (S k + i)%nat by lia.
      apply Hquit. simpl in Hi. lia.
    + intros [|i] e Hi Hlen; [injection Hi as <-; reflexivity|].
      apply (Hfalse i); [exact Hi|simpl in Hlen; lia].
    + destruct Hstop as [Hs|Hs]; [left; exact Hs|right; exact Hs].
  - injection Hrun as <- <-. exists []. split; [constructor|].
    split; [simpl; lia|]. split; [intros i Hi; simpl in Hi; lia|].
    split; [intros i e _ Hi; simpl in Hi; lia|].
    apply andb_false_iff in Hcond as [Hq|He].
    + left. apply negb_false_iff in Hq. exact Hq.
    + right. apply negb_false_iff in He. subst. reflexivity.
Qed.

(** C9. The loop calls [process] again and again; it stops after [n]
    iterations when the [n] calls returned, only the last one may have
    reported exhaustion, no quit request was seen by the loop condition
    before any of them, and either the condition then sees the request or
    the last call reported exhaustion.  The flag is read by the condition
    only, so every started iteration is completed: the final state is the
    one left by the [n]-th call.  *)
Theorem run_until_quit_or_exhaustion
    (s s' : St) (eofs : list bool) (fuel : nat) :
  returns process s eofs s' ->
  (forall i eof, eofs !! i = Some eof -> (S i < length eofs)%nat ->
                 eof = false) ->
  (forall i, (i < length eofs)%nat -> quit_at i = false) ->
  quit_at (length eofs) = true \/ last eofs = Some true ->
  (length eofs < fuel)%nat ->
  run process quit_at fuel s = Some (Ok (length eofs), s').
Proof.
  intros Hret Hfalse Hquit Hstop Hfuel. unfold run.
  apply (run_from_stops s s' eofs Hret fuel 0%nat); auto.
Qed.

(** In particular: exhaustion reported by the fifth call and by no earlier
    one, and no quit request, make five iterations. *)
Lemma run_five_iterations (s s' : St) (fuel : nat) :
  returns process s [false; false; false; false; true] s' ->
  (forall i, (i < 5)%nat -> quit_at i = false) ->
  (5 < fuel)%nat ->
  run process quit_at fuel s = Some (Ok 5%nat, s').
Proof.
  intros Hret Hquit Hfuel. unfold run.
  apply (run_from_stops s s' _ Hret fuel 0%nat); auto.
  intros i eof Hi Hlen. simpl in Hlen.
  do 4 (destruct i as [|i]; [injection Hi as <-; reflexivity|]).
  lia.
Qed.

(** An exception in the call that follows [length eofs] iterations leaves
    the loop with it. *)
Lemma run_throws (s s1 s2 : St) (eofs : list bool) (e : exn) (fuel : nat) :
  returns process s eofs s1 ->
  Forall (eq false) eofs ->
  (forall i, (i <= length eofs)%nat -> quit_at i = false) ->
  process s1 = (Throw e, s2) ->
  (length eofs < fuel)%nat ->
  run process quit_at fuel s = Some (Throw e, s2).
Proof.
  intros Hret Hall Hquit Hthrow Hfuel. unfold run.
  replace fuel with (length eofs + S (fuel - length eofs - 1))%nat by lia.
  rewrite (run_from_returns s s1 eofs Hret); [|exact Hall|].
  - cbn [run_from Nat.add]. rewrite Hquit by lia. cbn [negb andb].
    rewrite Hthrow. reflexivity.
  - intros i Hi. apply Hquit. simpl. lia.
Qed.


End RunProperties.

(** ** DifferenceDetector2D: the claims about detection *)

Lemma thresh_binary_cases (T v : Z) :
  cv.thresh_binary T 255 v = 0 \/ cv.thresh_binary T 255 v = 255.
Proof.
  unfold cv.thresh_binary. destruct (T <? v); [right|left]; reflexivity.
Qed.

(** Thresholding a thresholded 8-bit value again changes nothing. *)
Lemma thresh_binary_idempotent (T v : Z) :
  0 <= v <= 255 ->
  cv.thresh_binary T 255 (cv.thresh_binary T 255 v) = cv.thresh_binary T 255 v.
Proof.
  intros Hv. unfold cv.thresh_binary, cv.saturate_cast_uchar.
  destruct (T <? v) eqn:E.
  - apply Z.ltb_lt in E.
    replace (Z.max 0 (Z.min 255 255)) with 255 by lia.
    destruct (T <? 255) eqn:E'; [reflexivity|]. apply Z.ltb_ge in E'. lia.
  - apply Z.ltb_ge in E.
    destruct (T <? 0) eqn:E'; [|reflexivity]. apply Z.ltb_lt in E'. lia.
Qed.

Lemma threshold_idempotent (m : cv.Mat) (T : Z) :
  Forall (Forall (fun v => 0 <= v <= 255)) (cv.data m) ->
  cv.threshold (cv.threshold m T 255) T 255 = cv.threshold m T 255.
Proof.
  intros Hm. unfold cv.threshold. cbn [cv.rows cv.cols cv.channels cv.data].
  f_equal. rewrite <- list_fmap_compose.
  apply Forall_fmap_ext_1. eapply Forall_impl; [exact Hm|].
  intros p Hp. cbn. rewrite <- list_fmap_compose.
  apply Forall_fmap_ext_1. eapply Forall_impl; [exact Hp|].
  intros v Hv. apply thresh_binary_idempotent. exact Hv.
Qed.

Lemma threshold_binary_values (m : cv.Mat) (T : Z) :
  Forall (Forall (fun v => v = 0 \/ v = 255)) (cv.data (cv.threshold m T 255)).
Proof.
  unfold cv.threshold. cbn [cv.data].
  apply Forall_fmap, Forall_true. intros p. cbn.
  apply Forall_fmap, Forall_true. intros v. cbn. apply thresh_binary_cases.
Qed.

(** ** Coordinates as [float] *)







Section DetectionClaims.
Variable blur : cv.Mat -> cv.Size -> cv.Mat.
Variable findContours : cv.Mat -> list (list cv.Point).
Variable tuning_overlay :
  cv.Mat -> bool -> cv.Rect -> oat.Position2D -> cv.Mat.
Variable waitKey :
  DifferenceDetector2D.t -> list DifferenceDetector2D.slider_move.

#[local] Abbreviation applyThreshold :=
  (DifferenceDetector2D.applyThreshold blur).
#[local] Abbreviation detectPosition :=
  (DifferenceDetector2D.detectPosition blur findContours tuning_overlay
     waitKey).

(** C6. A call of [detectPosition] on a detector that holds a history
    frame, with a colour frame whose grey image has the history's shape:
    the frame is converted to grey; the difference image holds the absolute
    differences to the history; a pixel of it is foreground (255) when it
    exceeds the threshold and background (0) otherwise; with the blur on,
    the foreground image is blurred and thresholded again with the same
    threshold, and the result is the mask; the mask holds only 0 and 255;
    the grey frame then is the history; and the position returned is read
    off the mask. *)
Theorem detectPosition_with_history
    (frame : cv.Mat) (d : DifferenceDetector2D.t) (gray : cv.Mat) :
  DifferenceDetector2D.last_image_set d = true ->
  cv.cvtColor_BGR2GRAY frame = Ok gray ->
  cv.same_shape gray (DifferenceDetector2D.last_image d) = true ->
  let T := DifferenceDetector2D.difference_intensity_threshold d in
  let diff := difference_image gray (DifferenceDetector2D.last_image d) in
  let foreground :=
    cv.mkMat (cv.rows diff) (cv.cols diff) (cv.channels diff)
      ((fun p : list Z => (fun v => if T <? v then 255 else 0) <$> p)
         <$> cv.data diff) in
  let mask :=
    if DifferenceDetector2D.blur_on d
    then cv.threshold (blur foreground (DifferenceDetector2D.blur_size d))
           T 255
    else foreground in
  cv.data gray = cv.gray_of <$> cv.data frame
  /\ Forall (Forall (fun v => v = 0 \/ v = 255)) (cv.data mask)
  /\ exists d1 d',
       applyThreshold (DifferenceDetector2D.set_this_image frame d)
         = (Ok tt, d1)
       /\ DifferenceDetector2D.threshold_image d1 = mask
       /\ DifferenceDetector2D.last_image d1 = gray
       /\ detectPosition frame d = (Ok (sifted_position findContours d1), d')
       /\ DifferenceDetector2D.last_image d' = gray
       /\ DifferenceDetector2D.last_image_set d' = true.
Proof.
  intros Hset Hgray Hshape T diff foreground mask.
  assert (Hfg : foreground = cv.threshold diff T 255) by reflexivity.
  assert (Hmask : mask = mask_of blur d diff).
  { unfold mask, mask_of. fold T. rewrite Hfg.
    destruct (DifferenceDetector2D.blur_on d); [reflexivity|].
    symmetry. apply threshold_idempotent. unfold diff, difference_image.
    cbn [cv.data]. apply zip_with_Forall_range. intros p q.
    apply zip_with_Forall_range. intros x y. lia. }
  split; [|split].
  - unfold cv.cvtColor_BGR2GRAY in Hgray.
    destruct ((cv.channels frame =? 3) || (cv.channels frame =? 4));
      [|discriminate Hgray].
    injection Hgray as <-. reflexivity.
  - rewrite Hmask. apply threshold_binary_values.
  - pose proof (applyThreshold_history blur
                  (DifferenceDetector2D.set_this_image frame d) gray)
      as Hthr.
    fields. specialize (Hthr Hset Hgray Hshape).
    destruct (detectPosition_after_threshold blur findContours tuning_overlay
                waitKey frame d _ Hthr) as (d' & Hd & _ & Hl & Hls).
    eexists. exists d'. split; [exact Hthr|].
    split; [rewrite Hmask; reflexivity|]. split; [reflexivity|].
    split; [exact Hd|]. split; [rewrite Hl; reflexivity|].
    rewrite Hls. fields. exact Hset.
Qed.


(** C1, as the code has it.  The first call, on a detector without
    history (as the constructor leaves it) and a colour frame, stores the
    grey frame as the history; the position it returns is valid exactly
    when contour discovery finds a contour in that grey frame. *)
Theorem first_detectPosition_sifts_gray_frame
    (threshold0 : Z) (position0 : oat.Position2D)
    (image_source_name position_sink_name : string)
    (frame : cv.Mat) (d : DifferenceDetector2D.t) (gray : cv.Mat) :
  DifferenceDetector2D.last_image_set d = false ->
  cv.cvtColor_BGR2GRAY frame = Ok gray ->
  DifferenceDetector2D.last_image_set
    (DifferenceDetector2D.new threshold0 position0 image_source_name
       position_sink_name) = false
  /\ exists pos d',
       detectPosition frame d = (Ok pos, d')
       /\ DifferenceDetector2D.last_image d' = gray
       /\ DifferenceDetector2D.last_image_set d' = true
       /\ (oat.position_valid pos = true <-> findContours gray <> []).
Proof.
  intros Hset Hgray. split; [reflexivity|].
  pose proof (applyThreshold_first blur
                (DifferenceDetector2D.set_this_image frame d) gray) as Hthr.
  fields. specialize (Hthr Hset Hgray).
  destruct (detectPosition_after_threshold blur findContours tuning_overlay
              waitKey frame d _ Hthr) as (d' & Hd & _ & Hl & Hls).
  eexists. exists d'. split; [exact Hd|].
  split; [rewrite Hl; reflexivity|]. split; [rewrite Hls; reflexivity|].
  unfold sifted_position. fields.
  destruct (findContours gray) as [|c cs] eqn:Hc using rev_ind.
  - cbn. split; [discriminate|]. intros H. contradiction.
  - rewrite last_snoc. cbn. split; [|reflexivity].
    intros _ H. destruct cs; discriminate H.
Qed.

End DetectionClaims.

(** ** Failures during detection *)

Section FailureClaims.
Variable blur : cv.Mat -> cv.Size -> cv.Mat.
Variable findContours : cv.Mat -> list (list cv.Point).
Variable tuning_overlay :
  cv.Mat -> bool -> cv.Rect -> oat.Position2D -> cv.Mat.
Variable waitKey :
  DifferenceDetector2D.t -> list DifferenceDetector2D.slider_move.
Variable parse_file : toml.parser toml.difference_table.
Variable quit_at : nat -> bool.

#[local] Abbreviation detectPosition :=
  (DifferenceDetector2D.detectPosition blur findContours tuning_overlay
     waitKey).
#[local] Abbreviation process :=
  (posidet.process blur findContours tuning_overlay waitKey).
#[local] Abbreviation main :=
  (posidet.main blur findContours tuning_overlay waitKey parse_file quit_at).



End FailureClaims.


(** ** The foreground shrinks when the threshold grows *)

Lemma thresh_binary_antitone (T_lo T_hi x y : Z) :
  T_lo <= T_hi -> x <= y ->
  cv.thresh_binary T_hi 255 x <= cv.thresh_binary T_lo 255 y.
Proof.
  intros HT Hxy. unfold cv.thresh_binary, cv.saturate_cast_uchar.
  destruct (T_hi <? x) eqn:E1, (T_lo <? y) eqn:E2; lia.
Qed.

Lemma threshold_antitone (a b : cv.Mat) (T_lo T_hi : Z) :
  T_lo <= T_hi -> mat_le a b ->
  mat_le (cv.threshold a T_hi 255) (cv.threshold b T_lo 255).
Proof.
  intros HT Hle. unfold mat_le, cv.threshold. cbn [cv.data].
  apply Forall2_fmap_2. eapply Forall2_impl; [exact Hle|].
  intros p q Hpq. cbn. apply Forall2_fmap_2.
  eapply Forall2_impl; [exact Hpq|].
  intros x y Hxy. apply thresh_binary_antitone; assumption.
Qed.

Lemma mat_le_refl (a : cv.Mat) : mat_le a a.
Proof.
  unfold mat_le. apply Forall_Forall2_diag, Forall_true. intros p.
  apply Forall_Forall2_diag, Forall_true. intros v. reflexivity.
Qed.

Lemma threshold_same_shape (a : cv.Mat) (T T' : Z) :
  cv.same_shape (cv.threshold a T 255) (cv.threshold a T' 255) = true.
Proof.
  unfold cv.threshold, cv.same_shape. cbn [cv.rows cv.cols cv.channels].
  rewrite !Z.eqb_refl. reflexivity.
Qed.

Lemma mask_of_antitone (blur : cv.Mat -> cv.Size -> cv.Mat)
    (d : DifferenceDetector2D.t) (T_lo T_hi : Z) (diff : cv.Mat) :
  blur_monotone blur -> T_lo <= T_hi ->
  mat_le
    (mask_of blur
       (DifferenceDetector2D.set_difference_intensity_threshold T_hi d) diff)
    (mask_of blur
       (DifferenceDetector2D.set_difference_intensity_threshold T_lo d) diff).
Proof.
  intros Hblur HT. unfold mask_of. fields.
  apply threshold_antitone; [exact HT|].
  pose proof (threshold_antitone diff diff T_lo T_hi HT (mat_le_refl diff))
    as Hfg.
  destruct (DifferenceDetector2D.blur_on d); [|exact Hfg].
  apply Hblur; [apply threshold_same_shape|exact Hfg].
Qed.

Lemma mask_values_not_negative (blur : cv.Mat -> cv.Size -> cv.Mat)
    (d : DifferenceDetector2D.t) (diff : cv.Mat) (i : nat) (v : Z) :
  cv.value_at (mask_of blur d diff) i = Some v -> 0 <= v.
Proof.
  unfold cv.value_at, mask_of. intros H.
  destruct (cv.data (cv.threshold _ _ 255) !! i) as [p|] eqn:Hp;
    [|discriminate H].
  pose proof (threshold_binary_values
                (if DifferenceDetector2D.blur_on d
                 then blur
                        (cv.threshold diff
                           (DifferenceDetector2D.difference_intensity_threshold
                              d) 255)
                        (DifferenceDetector2D.blur_size d)
                 else cv.threshold diff
                        (DifferenceDetector2D.difference_intensity_threshold d)
                        255)
                (DifferenceDetector2D.difference_intensity_threshold d))
    as Hbin.
  rewrite Forall_lookup in Hbin. specialize (Hbin i p Hp).
  destruct p as [|w p]; [discriminate H|]. cbn in H. injection H as <-.
  inversion Hbin as [|? ? [->| ->] _]; lia.
Qed.

Lemma foreground_mat_le (a b : cv.Mat) (i : nat) :
  mat_le a b ->
  (forall v, cv.value_at a i = Some v -> 0 <= v) ->
  foreground a i -> foreground b i.
Proof.
  intros Hle Hpos (v & Hv & Hne).
  pose proof (Hpos v Hv) as Hv0.
  unfold cv.value_at in *.
  destruct (cv.data a !! i) as [p|] eqn:Hp; [|discriminate Hv].
  destruct (Forall2_lookup_l _ _ _ i p Hle Hp) as (q & Hq & Hpq).
  destruct p as [|x p]; [discriminate Hv|]. cbn in Hv. injection Hv as ->.
  inversion Hpq as [|? w ? q' Hvw _]; subst.
  exists w. unfold cv.value_at. rewrite Hq. split; [reflexivity|lia].
Qed.

Lemma applyThreshold_history_inv (blur : cv.Mat -> cv.Size -> cv.Mat)
    (d d1 : DifferenceDetector2D.t) :
  DifferenceDetector2D.last_image_set d = true ->
  DifferenceDetector2D.applyThreshold blur d = (Ok tt, d1) ->
  exists gray,
    cv.cvtColor_BGR2GRAY (DifferenceDetector2D.this_image d) = Ok gray
    /\ cv.same_shape gray (DifferenceDetector2D.last_image d) = true.
Proof.
  intros Hset Hok.
  destruct (cv.cvtColor_BGR2GRAY (DifferenceDetector2D.this_image d))
    as [gray|e] eqn:Hgray.
  - exists gray. split; [reflexivity|].
    destruct (cv.same_shape gray (DifferenceDetector2D.last_image d))
      eqn:Hshape; [reflexivity|].
    exfalso. revert Hok.
    unfold DifferenceDetector2D.applyThreshold. run_monad.
    rewrite Hset, Hgray. fields. unfold cv.absdiff.
    rewrite (arithm_op_mismatch _ _ _ Hshape). discriminate.
  - exfalso. revert Hok.
    unfold DifferenceDetector2D.applyThreshold. run_monad.
    rewrite Hset, Hgray. discriminate.
Qed.

(** C8. One history frame, one incoming frame and one blur setting, that
    is one detector [d] up to its threshold: every pixel that is foreground
    in the mask computed with the threshold [T_hi] is foreground in the mask
    computed with a threshold [T_lo <= T_hi]. *)
Theorem foreground_antitone_in_threshold
    (blur : cv.Mat -> cv.Size -> cv.Mat)
    (d : DifferenceDetector2D.t) (T_lo T_hi : Z) (frame : cv.Mat)
    (d_hi : DifferenceDetector2D.t) :
  blur_monotone blur ->
  T_lo <= T_hi ->
  DifferenceDetector2D.last_image_set d = true ->
  DifferenceDetector2D.applyThreshold blur
    (DifferenceDetector2D.set_this_image frame
       (DifferenceDetector2D.set_difference_intensity_threshold T_hi d))
    = (Ok tt, d_hi) ->
  exists d_lo,
    DifferenceDetector2D.applyThreshold blur
      (DifferenceDetector2D.set_this_image frame
         (DifferenceDetector2D.set_difference_intensity_threshold T_lo d))
      = (Ok tt, d_lo)
    /\ forall i,
         foreground (DifferenceDetector2D.threshold_image d_hi) i ->
         foreground (DifferenceDetector2D.threshold_image d_lo) i.
Proof.
  intros Hblur HT Hset Hhi.
  set (at_hi := DifferenceDetector2D.set_this_image frame
                  (DifferenceDetector2D.set_difference_intensity_threshold
                     T_hi d)) in *.
  set (at_lo := DifferenceDetector2D.set_this_image frame
                  (DifferenceDetector2D.set_difference_intensity_threshold
                     T_lo d)).
  assert (Hset_hi : DifferenceDetector2D.last_image_set at_hi = true)
    by exact Hset.
  assert (Hset_lo : DifferenceDetector2D.last_image_set at_lo = true)
    by exact Hset.
  destruct (applyThreshold_history_inv blur at_hi d_hi Hset_hi Hhi)
    as (gray & Hgray & Hshape).
  pose proof (applyThreshold_history blur at_hi gray Hset_hi Hgray Hshape)
    as Hhi'.
  pose proof (applyThreshold_history blur at_lo gray Hset_lo Hgray Hshape)
    as Hlo.
  rewrite Hhi in Hhi'. injection Hhi' as ->.
  eexists. split; [exact Hlo|]. subst at_hi at_lo. fields. intros i.
  apply foreground_mat_le.
  - apply (mask_of_antitone blur
             (DifferenceDetector2D.set_this_image frame d) T_lo T_hi _
             Hblur HT).
  - intros v. apply mask_values_not_negative.
Qed.

(** ** The reference box filter is monotone *)

Lemma cvRound_div_mono (k s1 s2 : Z) :
  0 < k -> s1 <= s2 ->
  reference.cvRound_div s1 k <= reference.cvRound_div s2 k.
Proof.
  intros Hk Hs. unfold reference.cvRound_div.
  pose proof (Z.div_mod s1 k ltac:(lia)) as E1.
  pose proof (Z.div_mod s2 k ltac:(lia)) as E2.
  pose proof (Z.mod_pos_bound s1 k Hk) as B1.
  pose proof (Z.mod_pos_bound s2 k Hk) as B2.
  pose proof (Z.div_le_mono s1 s2 k Hk Hs) as Hq.
  set (q1 := s1 / k) in *. set (q2 := s2 / k) in *.
  set (r1 := s1 mod k) in *. set (r2 := s2 mod k) in *.
  destruct (Z.eq_dec q1 q2) as [Heq|Hne].
  - assert (r1 <= r2) by (rewrite Heq in E1; lia).
    rewrite Heq.
    destruct (2 * r1 <? k) eqn:A1, (2 * r2 <? k) eqn:A2,
             (k <? 2 * r1) eqn:C1, (k <? 2 * r2) eqn:C2,
             (Z.even q2); lia.
  - assert (q1 + 1 <= q2) by lia.
    destruct (2 * r1 <? k), (2 * r2 <? k), (k <? 2 * r1), (k <? 2 * r2),
             (Z.even q1), (Z.even q2); lia.
Qed.

Lemma Zsum_mono (l k : list Z) :
  Forall2 Z.le l k -> reference.Zsum l <= reference.Zsum k.
Proof. induction 1; simpl; lia. Qed.

Lemma Forall2_nth {A B} (R : A -> B -> Prop) (l : list A) (k : list B)
    (i : nat) (d : A) (d' : B) :
  Forall2 R l k -> R d d' -> R (nth i l d) (nth i k d').
Proof.
  intros H Hd. revert i.
  induction H as [|x y l k Hxy _ IH]; intros [|i]; simpl; auto.
Qed.

Lemma channel_at_mono (a b : cv.Mat) (r c : Z) (ch : nat) :
  cv.cols a = cv.cols b -> mat_le a b ->
  reference.channel_at a r c ch <= reference.channel_at b r c ch.
Proof.
  intros Hcols Hle. unfold reference.channel_at. rewrite Hcols.
  apply (Forall2_nth Z.le); [|reflexivity].
  apply (Forall2_nth (Forall2 Z.le)); [exact Hle|constructor].
Qed.

Lemma window_sum_mono (a b : cv.Mat) (ksize : cv.Size) (r c : Z) (ch : nat) :
  cv.rows a = cv.rows b -> cv.cols a = cv.cols b -> mat_le a b ->
  reference.window_sum a ksize r c ch <= reference.window_sum b ksize r c ch.
Proof.
  intros Hrows Hcols Hle. unfold reference.window_sum.
  apply Zsum_mono. rewrite Hrows, Hcols.
  apply Forall2_bind, Forall_Forall2_diag, Forall_true. intros i.
  apply Forall2_bind, Forall_Forall2_diag, Forall_true. intros j.
  constructor; [|constructor].
  apply channel_at_mono; assumption.
Qed.

Lemma bind_nil_r {A B} (l : list A) : l ≫= (fun _ => @nil B) = [].
Proof. induction l as [|x l IH]; [reflexivity|exact IH]. Qed.

Lemma window_sum_empty (a : cv.Mat) (ksize : cv.Size) (r c : Z) (ch : nat) :
  cv.width ksize <= 0 \/ cv.height ksize <= 0 ->
  reference.window_sum a ksize r c ch = 0.
Proof.
  intros [Hw|Hh]; unfold reference.window_sum.
  - rewrite (seqZ_nil 0 (cv.width ksize)) by exact Hw.
    cbn. rewrite bind_nil_r. reflexivity.
  - rewrite (seqZ_nil 0 (cv.height ksize)) by exact Hh. reflexivity.
Qed.

Lemma same_shape_eqs (a b : cv.Mat) :
  cv.same_shape a b = true ->
  cv.rows a = cv.rows b /\ cv.cols a = cv.cols b
  /\ cv.channels a = cv.channels b.
Proof. unfold cv.same_shape. lia. Qed.

Lemma reference_blur_monotone : blur_monotone reference.blur.
Proof.
  intros ksize a b Hshape Hle.
  destruct (same_shape_eqs a b Hshape) as (Hrows & Hcols & Hchan).
  unfold mat_le, reference.blur. cbn [cv.data].
  rewrite Hrows, Hcols, Hchan.
  apply Forall2_bind, Forall_Forall2_diag, Forall_true. intros r.
  apply Forall2_bind, Forall_Forall2_diag, Forall_true. intros c.
  constructor; [|constructor].
  apply Forall2_fmap_2, Forall_Forall2_diag, Forall_true. intros ch.
  destruct (Z_lt_le_dec 0 (cv.width ksize)) as [Hw|Hw];
    [destruct (Z_lt_le_dec 0 (cv.height ksize)) as [Hh|Hh]|].
  - apply cvRound_div_mono; [lia|].
    apply window_sum_mono; assumption.
  - rewrite !window_sum_empty by (right; exact Hh). reflexivity.
  - rewrite !window_sum_empty by (left; exact Hw). reflexivity.
Qed.

(** ** The theorems at concrete inputs *)

(** C1 as stated fails.  The first frame is [white_spot]: its grey image
    has the value 255 in the middle, contour discovery finds that pixel,
    and the first call returns the valid position (1.5, 1.5). *)
Lemma first_call_can_report_valid_position :
  fst (examples.detect examples.white_spot examples.detector0)
    = Ok examples.centre_1_1
  /\ oat.position_valid examples.centre_1_1 = true.
Proof. split; vm_compute; reflexivity. Qed.

Lemma first_detectPosition_sifts_gray_frame_witness :
  exists pos d',
    examples.detect examples.white_spot examples.detector0 = (Ok pos, d')
    /\ DifferenceDetector2D.last_image d' = examples.white_spot_gray
    /\ oat.position_valid pos = true.
Proof.
  destruct (first_detectPosition_sifts_gray_frame
              reference.blur reference.findContours reference.tuning_overlay
              reference.waitKey 0 examples.position0 "raw" "pos"
              examples.white_spot examples.detector0 examples.white_spot_gray
              eq_refl eq_refl)
    as (_ & pos & d' & Hd & Hl & _ & Hv).
  exists pos, d'. split; [exact Hd|]. split; [exact Hl|].
  apply Hv. vm_compute. discriminate.
Defined.

(** C6 at the detector [blurring] and the frame [black3]: the difference
    to the history is the white pixel, the blur spreads it to the value 64
    everywhere, which the threshold 100 removes. *)
Lemma detectPosition_with_history_witness :
  exists d1 d',
    DifferenceDetector2D.applyThreshold reference.blur
      (DifferenceDetector2D.set_this_image examples.black3 examples.blurring)
      = (Ok tt, d1)
    /\ DifferenceDetector2D.threshold_image d1 = examples.black3_gray
    /\ examples.detect examples.black3 examples.blurring
       = (Ok (sifted_position reference.findContours d1), d')
    /\ DifferenceDetector2D.last_image d' = examples.black3_gray.
Proof.
  destruct (detectPosition_with_history
              reference.blur reference.findContours reference.tuning_overlay
              reference.waitKey
              examples.black3 examples.blurring examples.black3_gray
              eq_refl eq_refl eq_refl)
    as (_ & _ & d1 & d' & Hthr & Hmask & _ & Hd & Hl & _).
  exists d1, d'. split; [exact Hthr|]. split; [|split; [exact Hd|exact Hl]].
  rewrite Hmask. vm_compute. reflexivity.
Defined.


(** The contour selected need not be the largest: when contour discovery
    returns the square (bounding area 100) and then the point (bounding
    area 1), the position is the centre of the point. *)
Lemma last_contour_need_not_be_largest :
  cv.area (cv.boundingRect examples.square_contour) = 100
  /\ cv.area (cv.boundingRect examples.point_contour) = 1
  /\ DifferenceDetector2D.object_position
       (snd (DifferenceDetector2D.siftBlobs
               (fun _ => [examples.square_contour; examples.point_contour])
               reference.tuning_overlay examples.sharp))
     = oat.mkPosition2D
         (cv.mkPoint2f (cv.to_float 11 (-1)) (cv.to_float 11 (-1))) true.
Proof. repeat split; vm_compute; reflexivity. Qed.


(** C8 at the detector that has seen [white_spot], the frame [black3] and
    the thresholds 10 and 50, with the reference box filter: the blurred
    difference is 64 everywhere, so the middle pixel (index 4) is
    foreground for both thresholds. *)
Lemma foreground_antitone_in_threshold_witness :
  10 <= 50
  /\ exists d_hi d_lo,
       DifferenceDetector2D.applyThreshold reference.blur
         (DifferenceDetector2D.set_this_image examples.black3
            (DifferenceDetector2D.set_difference_intensity_threshold 50
               examples.after_white_spot))
         = (Ok tt, d_hi)
       /\ DifferenceDetector2D.applyThreshold reference.blur
            (DifferenceDetector2D.set_this_image examples.black3
               (DifferenceDetector2D.set_difference_intensity_threshold 10
                  examples.after_white_spot))
          = (Ok tt, d_lo)
       /\ foreground (DifferenceDetector2D.threshold_image d_hi) 4
       /\ foreground (DifferenceDetector2D.threshold_image d_lo) 4.
Proof.
  split; [lia|].
  destruct (foreground_antitone_in_threshold reference.blur
              examples.after_white_spot 10 50 examples.black3
              (snd (DifferenceDetector2D.applyThreshold reference.blur
                      (DifferenceDetector2D.set_this_image examples.black3
                         (DifferenceDetector2D.set_difference_intensity_threshold
                            50 examples.after_white_spot))))
              reference_blur_monotone ltac:(lia) eq_refl eq_refl)
    as (d_lo & Hlo & Hsub).
  eexists. exists d_lo. split; [vm_compute; reflexivity|].
  split; [exact Hlo|].
  assert (Hhi : foreground
                  (cv.mkMat 3 3 1
                     [[255]; [255]; [255]; [255]; [255]; [255]; [255]; [255];
                      [255]]) 4).
  { exists 255. split; [reflexivity|discriminate]. }
  split; [exact Hhi|]. apply Hsub. exact Hhi.
Defined.

(** C9 at a source of four frames and no quit request: the fifth call of
    [process] reports exhaustion and the loop returns after exactly five
    iterations, with the four positions published. *)
Lemma run_until_quit_or_exhaustion_witness :
  exists s',
    run (posidet.process reference.blur reference.findContours
           reference.tuning_overlay reference.waitKey)
      examples.never_quit 6 examples.four_frames
    = Some (Ok 5%nat, s')
    /\ Detector2D.frame_source s' = []
    /\ length (Detector2D.position_sink s') = 4%nat.
Proof.
  eexists. split.
  - apply (run_until_quit_or_exhaustion
             (posidet.process reference.blur reference.findContours
                reference.tuning_overlay reference.waitKey)
             examples.never_quit examples.four_frames _
             [false; false; false; false; true] 6).
    + repeat (eapply returns_cons; [vm_compute; reflexivity|]).
      apply returns_nil.
    + intros i eof Hi Hlen. simpl in Hlen.
      do 4 (destruct i as [|i]; [injection Hi as <-; reflexivity|]).
      lia.
    + intros i _. reflexivity.
    + right. reflexivity.
    + simpl. lia.
  - split; reflexivity.
Defined.

(** * Further properties *)

(** ** What detection leaves alone *)

Ltac split_matches :=
  repeat match goal with
         | |- context [match ?x with _ => _ end] => destruct x eqn:?; fields
         end.

Lemma applyThreshold_settings (blur : cv.Mat -> cv.Size -> cv.Mat)
    (d : DifferenceDetector2D.t) :
  settings (snd (DifferenceDetector2D.applyThreshold blur d)) = settings d
  /\ DifferenceDetector2D.tuning_windows_created
       (snd (DifferenceDetector2D.applyThreshold blur d))
     = DifferenceDetector2D.tuning_windows_created d.
Proof.
  unfold DifferenceDetector2D.applyThreshold, settings. run_monad.
  destruct d as [title created lset ton bon bsize T this last thr pos].
  cbv [cv.clone]. destruct lset, bon; fields; split_matches;
    split; reflexivity.
Qed.

Lemma siftBlobs_settings (findContours : cv.Mat -> list (list cv.Point))
    (tuning_overlay : cv.Mat -> bool -> cv.Rect -> oat.Position2D -> cv.Mat)
    (d : DifferenceDetector2D.t) :
  exists d',
    DifferenceDetector2D.siftBlobs findContours tuning_overlay d = (Ok tt, d')
    /\ settings d' = settings d
    /\ DifferenceDetector2D.tuning_windows_created d'
       = DifferenceDetector2D.tuning_windows_created d
    /\ DifferenceDetector2D.object_position d'
       = sifted_position findContours d.
Proof.
  destruct (siftBlobs_spec findContours tuning_overlay d)
    as (d' & Hs & Hpos & _ & _ & _ & Hc).
  exists d'. split; [exact Hs|]. split; [|split; [exact Hc|exact Hpos]].
  revert Hs. unfold DifferenceDetector2D.siftBlobs, settings. run_monad.
  destruct d as [title created lset ton bon bsize T this last thr pos].
  fields. destruct (0 <? length (findContours (cv.clone thr)))%nat, ton;
    fields; intros H; injection H as <-; reflexivity.
Qed.

(** What slider moves do to the settings depends on the settings only. *)
Lemma settings_slides (moves : list DifferenceDetector2D.slider_move)
    (a b : DifferenceDetector2D.t) :
  settings a = settings b ->
  settings (foldl DifferenceDetector2D.slide a moves)
  = settings (foldl DifferenceDetector2D.slide b moves).
Proof.
  revert a b. induction moves as [|move moves IH]; intros a b Hab;
    [exact Hab|].
  cbn [foldl]. apply IH.
  destruct a as [title created lset ton bon bsize T this last thr pos].
  destruct b as [title' created' lset' ton' bon' bsize' T' this' last' thr'
                 pos'].
  unfold settings in Hab. fields. injection Hab as -> -> -> -> ->.
  destruct move as [p|p]; unfold settings; cbn;
    unfold DifferenceDetector2D.blurSliderChangedCallback,
      DifferenceDetector2D.set_blur_size;
    try destruct (0 <? p); reflexivity.
Qed.

Lemma tune_settings
    (waitKey : DifferenceDetector2D.t -> list DifferenceDetector2D.slider_move)
    (d : DifferenceDetector2D.t) :
  exists d',
    DifferenceDetector2D.tune waitKey d = (Ok tt, d')
    /\ settings d'
       = (if DifferenceDetector2D.tuning_on d
          then settings
                 (foldl DifferenceDetector2D.slide d
                    (waitKey
                       (DifferenceDetector2D.set_tuning_windows_created true
                          d)))
          else settings d)
    /\ DifferenceDetector2D.tuning_windows_created d'
       = DifferenceDetector2D.tuning_on d
    /\ DifferenceDetector2D.object_position d'
       = DifferenceDetector2D.object_position d.
Proof.
  unfold DifferenceDetector2D.tune, DifferenceDetector2D.createTuningWindows.
  run_monad.
  destruct d as [title created lset ton bon bsize T this last thr pos].
  fields. destruct ton, created; cbn; eexists; (split; [reflexivity|]);
    try (repeat split; reflexivity).
  all: match goal with
       | |- context [foldl DifferenceDetector2D.slide ?d ?moves] =>
           destruct (slides_keep moves d) as (-> & _ & _ & _ & -> & _)
       end; split; [|split; reflexivity].
  all: apply settings_slides; reflexivity.
Qed.

Lemma settings_tuning_on (a b : DifferenceDetector2D.t) :
  settings a = settings b ->
  DifferenceDetector2D.tuning_on a = DifferenceDetector2D.tuning_on b.
Proof. unfold settings. intros H. injection H. intros. assumption. Qed.

Section Untouched.
Variable blur : cv.Mat -> cv.Size -> cv.Mat.
Variable findContours : cv.Mat -> list (list cv.Point).
Variable tuning_overlay :
  cv.Mat -> bool -> cv.Rect -> oat.Position2D -> cv.Mat.
Variable waitKey :
  DifferenceDetector2D.t -> list DifferenceDetector2D.slider_move.

#[local] Abbreviation detectPosition :=
  (DifferenceDetector2D.detectPosition blur findContours tuning_overlay
     waitKey).

(** The settings after [detectPosition]: as before when it throws or
    tuning is off, and otherwise as the slider moves leave them that
    arrive while [shown] is on display. *)
Lemma detectPosition_settings
    (frame : cv.Mat) (d : DifferenceDetector2D.t) :
  match fst (detectPosition frame d) with
  | Throw _ => settings (snd (detectPosition frame d)) = settings d
  | Ok pos =>
      if DifferenceDetector2D.tuning_on d
      then exists shown,
             settings shown = settings d
             /\ DifferenceDetector2D.tuning_windows_created shown = true
             /\ DifferenceDetector2D.object_position shown = pos
             /\ settings (snd (detectPosition frame d))
                = settings
                    (foldl DifferenceDetector2D.slide d (waitKey shown))
      else settings (snd (detectPosition frame d)) = settings d
  end.
Proof.
  destruct (applyThreshold_settings blur
              (DifferenceDetector2D.set_this_image frame d)) as [Hthr _].
  destruct (DifferenceDetector2D.applyThreshold blur
              (DifferenceDetector2D.set_this_image frame d))
    as [[[]|e] d1] eqn:Hat.
  - unfold DifferenceDetector2D.detectPosition.
    cbv [mbind M_bind bind modify gets]. rewrite Hat.
    destruct (siftBlobs_settings findContours tuning_overlay d1)
      as (d2 & Hs & Hset2 & _ & Hpos2).
    destruct (tune_settings waitKey d2) as (d3 & Ht & Hset3 & _ & Hpos3).
    rewrite Hs, Ht. cbn [fst snd] in *.
    assert (H2 : settings d2 = settings d)
      by (rewrite Hset2, Hthr; reflexivity).
    rewrite (settings_tuning_on _ _ H2) in Hset3.
    destruct (DifferenceDetector2D.tuning_on d).
    + exists (DifferenceDetector2D.set_tuning_windows_created true d2).
      split; [exact H2|]. split; [reflexivity|].
      split; [symmetry; exact Hpos3|].
      rewrite Hset3. apply settings_slides. exact H2.
    + rewrite Hset3. exact H2.
  - rewrite (detectPosition_threshold_throws blur findContours
               tuning_overlay waitKey frame d d1 e Hat).
    exact Hthr.
Qed.

(** X1. [detectPosition] changes the settings of the detector (the window
    title, the tuning flag, the blur flag, the kernel size and the
    threshold) in one way only: by the slider moves that arrive in
    [waitKey] when tuning is on and the call returns; the settings then are
    the ones before the call with these moves applied in their order.  When
    the call throws, or tuning is off, the settings are as before; the
    tuning flag and the title never change. *)
Theorem detectPosition_keeps_settings
    (frame : cv.Mat) (d : DifferenceDetector2D.t) :
  (forall e,
      fst (detectPosition frame d) = Throw e ->
      settings (snd (detectPosition frame d)) = settings d)
  /\ (DifferenceDetector2D.tuning_on d = false ->
      settings (snd (detectPosition frame d)) = settings d)
  /\ (forall pos,
        DifferenceDetector2D.tuning_on d = true ->
        fst (detectPosition frame d) = Ok pos ->
        exists shown,
          settings shown = settings d
          /\ DifferenceDetector2D.tuning_windows_created shown = true
          /\ DifferenceDetector2D.object_position shown = pos
          /\ settings (snd (detectPosition frame d))
             = settings (foldl DifferenceDetector2D.slide d (waitKey shown)))
  /\ DifferenceDetector2D.tuning_on (snd (detectPosition frame d))
     = DifferenceDetector2D.tuning_on d
  /\ DifferenceDetector2D.tuning_image_title (snd (detectPosition frame d))
     = DifferenceDetector2D.tuning_image_title d.
Proof.
  pose proof (detectPosition_settings frame d) as H.
  destruct (fst (detectPosition frame d)) as [pos|e] eqn:Hfst.
  - destruct (DifferenceDetector2D.tuning_on d) eqn:Hon.
    + destruct H as (shown & H1 & H2 & H3 & H4).
      destruct (slides_keep (waitKey shown) d) as (_ & _ & _ & Hton & _ & Ht).
      split; [discriminate|]. split; [discriminate|]. split.
      * intros pos' _ Hpos. injection Hpos as <-. exists shown.
        repeat split; assumption.
      * unfold settings in H4. injection H4 as Htitle Hon' _ _ _.
        rewrite Htitle, Hon', Hton, Ht, Hon. split; reflexivity.
    + split; [discriminate|]. split; [intros _; exact H|].
      split; [discriminate|].
      unfold settings in H. injection H as Htitle Hon' _ _ _.
      rewrite Htitle, Hon', Hon. split; reflexivity.
  - split; [intros _ _; exact H|]. split; [intros _; exact H|].
    split; [discriminate|].
    unfold settings in H. injection H as Htitle Hon' _ _ _.
    rewrite Htitle, Hon'. split; reflexivity.
Qed.

(** X2. After a call of [detectPosition] that returns, the member
    [tuning_windows_created] has the value of [tuning_on]: [tune] calls
    [createTuningWindows] (once, while the flag is clear) when tuning is
    on, and clears the flag when tuning is off. *)
Theorem detectPosition_window_follows_tuning
    (frame : cv.Mat) (d d' : DifferenceDetector2D.t) (pos : oat.Position2D) :
  detectPosition frame d = (Ok pos, d') ->
  DifferenceDetector2D.tuning_windows_created d'
    = DifferenceDetector2D.tuning_on d.
Proof.
  unfold DifferenceDetector2D.detectPosition.
  cbv [mbind M_bind bind modify gets].
  destruct (applyThreshold_settings blur
              (DifferenceDetector2D.set_this_image frame d)) as [Hthr _].
  destruct (DifferenceDetector2D.applyThreshold blur
              (DifferenceDetector2D.set_this_image frame d))
    as [[[]|e] d1] eqn:Hat; [|discriminate].
  destruct (siftBlobs_settings findContours tuning_overlay d1)
    as (d2 & Hs & Hset2 & _).
  destruct (tune_settings waitKey d2) as (d3 & Ht & _ & Hc & _).
  rewrite Hs, Ht. intros H. injection H as _ <-. rewrite Hc.
  cbn [snd] in Hthr.
  rewrite (settings_tuning_on _ _ Hset2), (settings_tuning_on _ _ Hthr).
  reflexivity.
Qed.

End Untouched.

(** ** The blur kernel *)

Lemma set_blur_size_kernel_ok (value : Z) (d : DifferenceDetector2D.t) :
  blur_kernel_ok (DifferenceDetector2D.set_blur_size value d).
Proof.
  unfold blur_kernel_ok, DifferenceDetector2D.set_blur_size.
  destruct (0 <? value) eqn:E; fields; cbn.
  - intros _. lia.
  - intros H. discriminate H.
Qed.

Lemma blur_kernel_ok_settings (a b : DifferenceDetector2D.t) :
  settings a = settings b -> blur_kernel_ok a -> blur_kernel_ok b.
Proof.
  unfold settings, blur_kernel_ok. intros H. injection H as _ _ -> -> _.
  intros Hok. exact Hok.
Qed.

(** The moves that [waitKey] delivers are the slider moves of the tuning
    window. *)
Lemma slide_tuning_window (pos : Z) (d : DifferenceDetector2D.t) :
  DifferenceDetector2D.slide d (DifferenceDetector2D.THRESH pos)
  = tuning_window.move_THRESH pos d
  /\ DifferenceDetector2D.slide d (DifferenceDetector2D.BLUR pos)
     = tuning_window.move_BLUR pos d.
Proof. split; reflexivity. Qed.

Lemma slides_kernel_ok (moves : list DifferenceDetector2D.slider_move)
    (d : DifferenceDetector2D.t) :
  blur_kernel_ok d -> blur_kernel_ok (foldl DifferenceDetector2D.slide d moves).
Proof.
  revert d. induction moves as [|move moves IH]; intros d Hok; [exact Hok|].
  cbn [foldl]. apply IH. destruct move as [pos|pos]; cbn.
  - exact Hok.
  - apply set_blur_size_kernel_ok.
Qed.

Lemma keeps_bind {S A B} (P : S -> Prop) (m : M S A) (k : A -> M S B) :
  keeps P m -> (forall a, keeps P (k a)) -> keeps P (m ≫= k).
Proof.
  intros Hm Hk s Hs. cbv [mbind M_bind bind]. specialize (Hm s Hs).
  destruct (m s) as [[a|e] s']; cbn [snd] in *; [apply Hk|]; exact Hm.
Qed.

Lemma keeps_modify {S} (P : S -> Prop) (f : S -> S) :
  (forall s, P s -> P (f s)) -> keeps P (modify f).
Proof. intros Hf s Hs. apply Hf, Hs. Qed.

Lemma keeps_gets {S A} (P : S -> Prop) (f : S -> A) : keeps P (gets f).
Proof. intros s Hs. exact Hs. Qed.

Lemma keeps_lift {S A} (P : S -> Prop) (r : Result A) :
  keeps P (lift r : M S A).
Proof. intros s Hs. exact Hs. Qed.

Lemma keeps_ret {S A} (P : S -> Prop) (a : A) : keeps P (mret a : M S A).
Proof. intros s Hs. exact Hs. Qed.

Lemma keeps_throw {S A} (P : S -> Prop) (e : exn) :
  keeps P (throw e : M S A).
Proof. intros s Hs. exact Hs. Qed.

Lemma keeps_when {S} (P : S -> Prop) (b : bool) (m : M S unit) :
  keeps P m -> keeps P (when b m).
Proof. intros Hm. destruct b; [exact Hm|apply (keeps_ret P tt)]. Qed.

Lemma configure_kernel_ok
    (parse_file : toml.parser toml.difference_table)
    (config_file config_key : string) :
  keeps blur_kernel_ok
    (DifferenceDetector2D.configure parse_file config_file config_key).
Proof.
  unfold DifferenceDetector2D.configure.
  apply keeps_bind; [apply keeps_lift|]. intros config.
  destruct (config !! config_key) as [this_config|]; [|apply keeps_throw].
  apply keeps_bind; [|intros _; apply keeps_bind; [|intros _]].
  - destruct (toml.blur this_config) as [v|]; [|apply keeps_ret].
    apply keeps_bind;
      [apply keeps_modify; intros; apply set_blur_size_kernel_ok|].
    intros _. apply keeps_bind; [apply keeps_gets|]. intros size.
    apply keeps_when, keeps_throw.
  - destruct (toml.diff_threshold this_config) as [v|]; [|apply keeps_ret].
    apply keeps_bind; [apply keeps_modify; intros s Hs; exact Hs|].
    intros _. apply keeps_bind; [apply keeps_gets|]. intros T.
    apply keeps_when, keeps_throw.
  - destruct (toml.tune this_config) as [[|]|]; try apply keeps_ret.
    apply keeps_bind; [apply keeps_modify; intros s Hs; exact Hs|].
    intros _. apply keeps_modify. intros s Hs. exact Hs.
Qed.

(** X3. The constructor, [set_blur_size], a move of the BLUR slider,
    a move of the THRESH slider, [configure] and [detectPosition] all keep
    this: when the blur is on, its kernel is a square of positive size, so
    [cv::blur] is never given another one. *)
Theorem blur_kernel_stays_positive_square
    (d : DifferenceDetector2D.t)
    (threshold0 : Z) (position0 : oat.Position2D)
    (image_source_name position_sink_name : string)
    (value pos : Z)
    (parse_file : toml.parser toml.difference_table)
    (config_file config_key : string)
    (blur : cv.Mat -> cv.Size -> cv.Mat)
    (findContours : cv.Mat -> list (list cv.Point))
    (tuning_overlay : cv.Mat -> bool -> cv.Rect -> oat.Position2D -> cv.Mat)
    (waitKey : DifferenceDetector2D.t -> list DifferenceDetector2D.slider_move)
    (frame : cv.Mat) :
  blur_kernel_ok d ->
  blur_kernel_ok
    (DifferenceDetector2D.new threshold0 position0 image_source_name
       position_sink_name)
  /\ blur_kernel_ok (DifferenceDetector2D.set_blur_size value d)
  /\ blur_kernel_ok (tuning_window.move_BLUR pos d)
  /\ blur_kernel_ok (tuning_window.move_THRESH pos d)
  /\ blur_kernel_ok
       (snd (DifferenceDetector2D.configure parse_file config_file
               config_key d))
  /\ blur_kernel_ok
       (snd (DifferenceDetector2D.detectPosition blur findContours
               tuning_overlay waitKey frame d)).
Proof.
  intros Hok. split; [|split; [|split; [|split; [|split]]]].
  - apply set_blur_size_kernel_ok.
  - apply set_blur_size_kernel_ok.
  - apply set_blur_size_kernel_ok.
  - exact Hok.
  - apply configure_kernel_ok, Hok.
  - pose proof (detectPosition_settings blur findContours
                  tuning_overlay waitKey frame d) as Hs.
    destruct (fst (DifferenceDetector2D.detectPosition blur findContours
                     tuning_overlay waitKey frame d)) as [p|e];
      [destruct (DifferenceDetector2D.tuning_on d);
       [destruct Hs as (shown & _ & _ & _ & Hs)|]|].
    + apply (blur_kernel_ok_settings _ _ (eq_sym Hs)), slides_kernel_ok, Hok.
    + apply (blur_kernel_ok_settings _ _ (eq_sym Hs)), Hok.
    + apply (blur_kernel_ok_settings _ _ (eq_sym Hs)), Hok.
Qed.

(** ** When detection fails, and when it sees nothing *)

Lemma applyThreshold_gray_fails (blur : cv.Mat -> cv.Size -> cv.Mat)
    (d : DifferenceDetector2D.t) (e : exn) :
  cv.cvtColor_BGR2GRAY (DifferenceDetector2D.this_image d) = Throw e ->
  fst (DifferenceDetector2D.applyThreshold blur d) = Throw e.
Proof.
  intros Hgray. unfold DifferenceDetector2D.applyThreshold. run_monad.
  destruct d as [title created lset ton bon bsize T this last thr pos].
  cbv [cv.clone]. fields. destruct lset; fields; rewrite Hgray; reflexivity.
Qed.

Lemma applyThreshold_shape_fails (blur : cv.Mat -> cv.Size -> cv.Mat)
    (d : DifferenceDetector2D.t) (gray : cv.Mat) :
  DifferenceDetector2D.last_image_set d = true ->
  cv.cvtColor_BGR2GRAY (DifferenceDetector2D.this_image d) = Ok gray ->
  cv.same_shape gray (DifferenceDetector2D.last_image d) = false ->
  fst (DifferenceDetector2D.applyThreshold blur d) = Throw cv.unmatched_sizes.
Proof.
  intros Hset Hgray Hshape.
  unfold DifferenceDetector2D.applyThreshold. run_monad.
  rewrite Hset, Hgray. fields. unfold cv.absdiff.
  rewrite (arithm_op_mismatch _ _ _ Hshape). reflexivity.
Qed.

Section Outcome.
Variable blur : cv.Mat -> cv.Size -> cv.Mat.
Variable findContours : cv.Mat -> list (list cv.Point).
Variable tuning_overlay :
  cv.Mat -> bool -> cv.Rect -> oat.Position2D -> cv.Mat.
Variable waitKey :
  DifferenceDetector2D.t -> list DifferenceDetector2D.slider_move.

#[local] Abbreviation detectPosition :=
  (DifferenceDetector2D.detectPosition blur findContours tuning_overlay
     waitKey).

Lemma detectPosition_fst_throw (frame : cv.Mat) (d : DifferenceDetector2D.t)
    (e : exn) :
  fst (DifferenceDetector2D.applyThreshold blur
         (DifferenceDetector2D.set_this_image frame d)) = Throw e ->
  fst (detectPosition frame d) = Throw e.
Proof.
  destruct (DifferenceDetector2D.applyThreshold blur
              (DifferenceDetector2D.set_this_image frame d))
    as [r d1] eqn:Hat.
  cbn [fst]. intros ->.
  rewrite (detectPosition_threshold_throws blur findContours tuning_overlay
             waitKey frame d d1 e Hat).
  reflexivity.
Qed.

(** X4. [detectPosition] throws in two cases only: the frame cannot be
    converted to grey (it has neither 3 nor 4 channels), or the detector
    holds a history frame whose shape is not that of the grey frame.  In
    every other case it returns, and the grey frame is the history
    afterwards. *)
Theorem detectPosition_outcome (frame : cv.Mat) (d : DifferenceDetector2D.t) :
  match cv.cvtColor_BGR2GRAY frame with
  | Throw e => fst (detectPosition frame d) = Throw e
  | Ok gray =>
      if DifferenceDetector2D.last_image_set d
         && negb (cv.same_shape gray (DifferenceDetector2D.last_image d))
      then fst (detectPosition frame d) = Throw cv.unmatched_sizes
      else exists pos d',
             detectPosition frame d = (Ok pos, d')
             /\ DifferenceDetector2D.last_image d' = gray
             /\ DifferenceDetector2D.last_image_set d' = true
  end.
Proof.
  destruct (cv.cvtColor_BGR2GRAY frame) as [gray|e] eqn:Hgray.
  - destruct (DifferenceDetector2D.last_image_set d) eqn:Hset;
      [destruct (cv.same_shape gray (DifferenceDetector2D.last_image d))
         eqn:Hshape|]; cbn [andb negb].
    + pose proof (applyThreshold_history blur
                    (DifferenceDetector2D.set_this_image frame d) gray
                    Hset Hgray Hshape) as Hthr.
      destruct (detectPosition_after_threshold blur findContours
                  tuning_overlay waitKey frame d _ Hthr)
        as (d' & Hd & _ & Hl & Hls).
      eexists. exists d'. split; [exact Hd|].
      split; [rewrite Hl; reflexivity|]. rewrite Hls. exact Hset.
    + apply detectPosition_fst_throw.
      apply (applyThreshold_shape_fails blur
               (DifferenceDetector2D.set_this_image frame d) gray);
        assumption.
    + pose proof (applyThreshold_first blur
                    (DifferenceDetector2D.set_this_image frame d) gray
                    Hset Hgray) as Hthr.
      destruct (detectPosition_after_threshold blur findContours
                  tuning_overlay waitKey frame d _ Hthr)
        as (d' & Hd & _ & Hl & Hls).
      eexists. exists d'. split; [exact Hd|].
      split; [rewrite Hl; reflexivity|]. rewrite Hls. reflexivity.
  - apply detectPosition_fst_throw.
    apply (applyThreshold_gray_fails blur
             (DifferenceDetector2D.set_this_image frame d)).
    exact Hgray.
Qed.

End Outcome.

Lemma threshold_black (m : cv.Mat) (T : Z) :
  Forall (Forall (fun v => v <= T)) (cv.data m) ->
  all_zero (cv.threshold m T 255).
Proof.
  intros Hm. unfold all_zero, cv.threshold. cbn [cv.data].
  apply Forall_fmap. eapply Forall_impl; [exact Hm|].
  intros p Hp. cbn. apply Forall_fmap. eapply Forall_impl; [exact Hp|].
  intros v Hv. cbn in *. unfold cv.thresh_binary.
  destruct (T <? v) eqn:E; [lia|reflexivity].
Qed.

Lemma all_zero_below (m : cv.Mat) (T : Z) :
  0 <= T -> all_zero m -> Forall (Forall (fun v => v <= T)) (cv.data m).
Proof.
  intros HT Hm. eapply Forall_impl; [exact Hm|].
  intros p Hp. eapply Forall_impl; [exact Hp|]. intros v <-. exact HT.
Qed.

Lemma mask_of_black (blur : cv.Mat -> cv.Size -> cv.Mat)
    (d : DifferenceDetector2D.t) (diff : cv.Mat) :
  blur_keeps_black blur -> blur_kernel_ok d ->
  0 <= DifferenceDetector2D.difference_intensity_threshold d ->
  Forall (Forall (fun v =>
            v <= DifferenceDetector2D.difference_intensity_threshold d))
    (cv.data diff) ->
  all_zero (mask_of blur d diff).
Proof.
  intros Hblur Hok HT Hdiff. unfold mask_of.
  apply threshold_black, all_zero_below; [exact HT|].
  pose proof (threshold_black diff _ Hdiff) as Hfg.
  destruct (DifferenceDetector2D.blur_on d) eqn:Hon; [|exact Hfg].
  destruct (Hok Hon) as [Hw Hh].
  apply Hblur; [exact Hw|rewrite Hh; exact Hw|exact Hfg].
Qed.

Section Quiet.
Variable blur : cv.Mat -> cv.Size -> cv.Mat.
Variable findContours : cv.Mat -> list (list cv.Point).
Variable tuning_overlay :
  cv.Mat -> bool -> cv.Rect -> oat.Position2D -> cv.Mat.
Variable waitKey :
  DifferenceDetector2D.t -> list DifferenceDetector2D.slider_move.
Hypothesis blur_black : blur_keeps_black blur.
Hypothesis contours_black : no_contour_in_black findContours.

#[local] Abbreviation detectPosition :=
  (DifferenceDetector2D.detectPosition blur findContours tuning_overlay
     waitKey).

(** No difference above the threshold: nothing is found, and the position
    returned is the previous one marked invalid. *)
Lemma quiet_frame (frame : cv.Mat) (d : DifferenceDetector2D.t)
    (gray : cv.Mat) :
  blur_kernel_ok d ->
  DifferenceDetector2D.last_image_set d = true ->
  cv.cvtColor_BGR2GRAY frame = Ok gray ->
  cv.same_shape gray (DifferenceDetector2D.last_image d) = true ->
  0 <= DifferenceDetector2D.difference_intensity_threshold d ->
  Forall (Forall (fun v =>
            v <= DifferenceDetector2D.difference_intensity_threshold d))
    (cv.data (difference_image gray (DifferenceDetector2D.last_image d))) ->
  exists d',
    detectPosition frame d
    = (Ok (oat.mkPosition2D
             (oat.position (DifferenceDetector2D.object_position d)) false),
       d').
Proof.
  intros Hok Hset Hgray Hshape HT Hdiff.
  pose proof (applyThreshold_history blur
                (DifferenceDetector2D.set_this_image frame d) gray
                Hset Hgray Hshape) as Hthr.
  destruct (detectPosition_after_threshold blur findContours tuning_overlay
              waitKey frame d _ Hthr) as (d' & Hd & _).
  exists d'. rewrite Hd. f_equal. f_equal.
  unfold sifted_position. fields.
  rewrite contours_black; [reflexivity|].
  apply (mask_of_black blur (DifferenceDetector2D.set_this_image frame d));
    assumption.
Qed.

(** X5. A frame whose grey image is the history frame (the same frame
    twice in a row), with a threshold that is not negative: the detector
    reports no position; the coordinates it returns are those of its last
    report, marked invalid. *)
Theorem same_frame_again_is_invalid
    (frame : cv.Mat) (d : DifferenceDetector2D.t) :
  blur_kernel_ok d ->
  DifferenceDetector2D.last_image_set d = true ->
  cv.cvtColor_BGR2GRAY frame = Ok (DifferenceDetector2D.last_image d) ->
  0 <= DifferenceDetector2D.difference_intensity_threshold d ->
  exists d',
    detectPosition frame d
    = (Ok (oat.mkPosition2D
             (oat.position (DifferenceDetector2D.object_position d)) false),
       d').
Proof.
  intros Hok Hset Hgray HT.
  apply (quiet_frame frame d (DifferenceDetector2D.last_image d));
    try assumption; [apply same_shape_refl|].
  unfold difference_image. cbn [cv.data].
  induction (cv.data (DifferenceDetector2D.last_image d)) as [|p l IH];
    simpl; constructor; [|exact IH].
  induction p as [|v p IHp]; simpl; constructor; [lia|exact IHp].
Qed.

(** X6. With a threshold of 255 or more (the slider goes to 256) no
    difference of 8-bit images can exceed it: whatever the frame, the
    detector reports no position. *)
Theorem threshold_255_blinds_detector
    (frame : cv.Mat) (d : DifferenceDetector2D.t) (gray : cv.Mat) :
  blur_kernel_ok d ->
  DifferenceDetector2D.last_image_set d = true ->
  cv.cvtColor_BGR2GRAY frame = Ok gray ->
  cv.same_shape gray (DifferenceDetector2D.last_image d) = true ->
  255 <= DifferenceDetector2D.difference_intensity_threshold d ->
  exists d',
    detectPosition frame d
    = (Ok (oat.mkPosition2D
             (oat.position (DifferenceDetector2D.object_position d)) false),
       d').
Proof.
  intros Hok Hset Hgray Hshape HT.
  apply (quiet_frame frame d gray); try assumption; [lia|].
  unfold difference_image. cbn [cv.data].
  apply zip_with_Forall_range. intros p q.
  apply zip_with_Forall_range. intros x y. lia.
Qed.

End Quiet.

(** The reference operations have the two properties. *)
Lemma Forall_nth_default {A} (P : A -> Prop) (l : list A) (i : nat) (d : A) :
  Forall P l -> P d -> P (nth i l d).
Proof.
  intros H Hd. revert i. induction H as [|x l Hx _ IH]; intros [|i]; simpl;
    auto.
Qed.

Lemma channel_at_black (m : cv.Mat) (r c : Z) (ch : nat) :
  all_zero m -> reference.channel_at m r c ch = 0.
Proof.
  intros Hm. unfold reference.channel_at. symmetry.
  apply (Forall_nth_default (eq 0)); [|reflexivity].
  apply (Forall_nth_default (Forall (eq 0))); [exact Hm|constructor].
Qed.

Lemma bind_all_nil {A B} (l : list A) (f : A -> list B) :
  (forall x, f x = []) -> l ≫= f = [].
Proof.
  intros Hf. induction l as [|x l IH]; [reflexivity|].
  cbn. rewrite Hf. exact IH.
Qed.

Lemma Zsum_zero (l : list Z) : Forall (eq 0) l -> reference.Zsum l = 0.
Proof. induction 1 as [|x l <- _ IH]; simpl; [reflexivity|exact IH]. Qed.

Lemma reference_blur_keeps_black : blur_keeps_black reference.blur.
Proof.
  intros ksize m Hw Hh Hm. unfold all_zero, reference.blur. cbn [cv.data].
  apply Forall_bind, Forall_true. intros r.
  apply Forall_bind, Forall_true. intros c.
  constructor; [|constructor].
  apply Forall_fmap, Forall_true. intros ch. cbn.
  assert (Hsum : reference.window_sum m ksize r c ch = 0).
  { unfold reference.window_sum. apply Zsum_zero.
    apply Forall_bind, Forall_true. intros i.
    apply Forall_bind, Forall_true. intros j.
    constructor; [|constructor]. symmetry. apply channel_at_black, Hm. }
  rewrite Hsum. unfold reference.cvRound_div.
  assert (0 < cv.width ksize * cv.height ksize) by lia.
  rewrite Z.div_0_l, Z.mod_0_l by lia.
  destruct (2 * 0 <? cv.width ksize * cv.height ksize) eqn:E;
    [reflexivity|lia].
Qed.

Lemma reference_no_contour_in_black :
  no_contour_in_black reference.findContours.
Proof.
  intros m Hm. unfold reference.findContours.
  apply bind_all_nil. intros r. apply bind_all_nil. intros c.
  rewrite (channel_at_black m r c 0 Hm). cbn.
  rewrite andb_false_r. reflexivity.
Qed.

(** ** More on the configuration of the detector *)

Section ConfigureProperties.
Variable blur : cv.Mat -> cv.Size -> cv.Mat.
Variable findContours : cv.Mat -> list (list cv.Point).
Variable tuning_overlay :
  cv.Mat -> bool -> cv.Rect -> oat.Position2D -> cv.Mat.
Variable waitKey :
  DifferenceDetector2D.t -> list DifferenceDetector2D.slider_move.
Variable parse_file : toml.parser toml.difference_table.
Variable quit_at : nat -> bool.

#[local] Abbreviation configure :=
  (DifferenceDetector2D.configure parse_file).
#[local] Abbreviation main :=
  (posidet.main blur findContours tuning_overlay waitKey parse_file quit_at).

(** X7. A configuration file that cannot be parsed, or one without a
    table under the key: [configure] throws (the parser's exception, or a
    [runtime_error] naming key and file) and has changed nothing, and
    [main] returns -1 without having asked the source for a frame. *)
Theorem configure_without_table_ends_program
    (config_file config_key : string) (s : Detector2D.stage) (fuel : nat) :
  match parse_file config_file with
  | Throw e =>
      configure config_file config_key (Detector2D.detector s)
        = (Throw e, Detector2D.detector s)
      /\ main (Some (config_file, config_key)) fuel s = Some (-1, s)
  | Ok config =>
      match config !! config_key with
      | Some _ => True
      | None =>
          configure config_file config_key (Detector2D.detector s)
            = (Throw (runtime_error
                        (DifferenceDetector2D.no_configuration_message
                           config_file config_key)),
               Detector2D.detector s)
          /\ main (Some (config_file, config_key)) fuel s = Some (-1, s)
      end
  end.
Proof.
  destruct s as [d frames sink]. cbn [Detector2D.detector].
  destruct (parse_file config_file) as [config|e] eqn:Hp.
  - destruct (config !! config_key) as [this_config|] eqn:Hk; [exact I|].
    assert (Hc : configure config_file config_key d
                 = (Throw (runtime_error
                             (DifferenceDetector2D.no_configuration_message
                                config_file config_key)), d)).
    { unfold DifferenceDetector2D.configure. run_monad.
      rewrite Hp, Hk. reflexivity. }
    split; [exact Hc|].
    cbv beta iota zeta delta [posidet.main Detector2D.detector
                              Detector2D.frame_source
                              Detector2D.position_sink].
    rewrite Hc. reflexivity.
  - assert (Hc : configure config_file config_key d = (Throw e, d)).
    { unfold DifferenceDetector2D.configure. run_monad.
      rewrite Hp. reflexivity. }
    split; [exact Hc|].
    cbv beta iota zeta delta [posidet.main Detector2D.detector
                              Detector2D.frame_source
                              Detector2D.position_sink].
    rewrite Hc. reflexivity.
Qed.

(** X8. A table with [blur = b] and [diff_threshold = t], both between 0
    and the largest [int]: [configure] returns; the blur is on exactly when
    [b > 0], then with a [b] x [b] kernel; the threshold is [t]; tuning is
    switched on by [tune = true] and otherwise left as it was; the history
    is not touched. *)
Theorem configure_stores_valid_settings
    (config_file config_key : string)
    (config : gmap string toml.difference_table)
    (this_config : toml.difference_table) (b t : Z)
    (d : DifferenceDetector2D.t) :
  parse_file config_file = Ok config ->
  config !! config_key = Some this_config ->
  toml.blur this_config = Some b ->
  toml.diff_threshold this_config = Some t ->
  0 <= b < 2 ^ 31 ->
  0 <= t < 2 ^ 31 ->
  0 <= cv.height (DifferenceDetector2D.blur_size d) ->
  exists d',
    configure config_file config_key d = (Ok tt, d')
    /\ DifferenceDetector2D.blur_on d' = (0 <? b)
    /\ (0 < b -> DifferenceDetector2D.blur_size d' = cv.mkSize b b)
    /\ DifferenceDetector2D.difference_intensity_threshold d' = t
    /\ DifferenceDetector2D.tuning_on d'
       = match toml.tune this_config with
         | Some true => true
         | _ => DifferenceDetector2D.tuning_on d
         end
    /\ DifferenceDetector2D.last_image_set d'
       = DifferenceDetector2D.last_image_set d
    /\ DifferenceDetector2D.last_image d' = DifferenceDetector2D.last_image d.
Proof.
  intros Hp Hk Hb Ht Hbr Htr Hh.
  unfold DifferenceDetector2D.configure. run_monad.
  rewrite Hp, Hk, Hb, Ht, !to_int_id by lia.
  destruct d as [title created lset ton bon bsize T this last thr pos].
  unfold DifferenceDetector2D.set_blur_size. fields.
  cbn [toml.is_value negb]. rewrite orb_false_r.
  destruct (0 <? b) eqn:E; fields.
  - cbn [cv.height].
    assert ((b <? 0) = false) as -> by lia.
    assert ((t <? 0) = false) as -> by lia.
    destruct (toml.tune this_config) as [[|]|]; eexists;
      repeat split; reflexivity.
  - assert ((cv.height bsize <? 0) = false) as -> by lia.
    assert ((t <? 0) = false) as -> by lia.
    destruct (toml.tune this_config) as [[|]|]; eexists;
      repeat split; try reflexivity; intros; lia.
Qed.

(** X9. A [diff_threshold] whose value, narrowed from [int64_t] to [int],
    is negative (every value from -2^31 to -1; not -2^32, which becomes 0),
    given to a detector whose stored kernel height is not negative:
    [configure] stores the narrowed value and throws a [runtime_error] that
    names key and file, whatever [blur] is; the key [tune] is not looked
    at, and [main] returns -1 without having asked the source for a
    frame. *)
Theorem configure_negative_diff_threshold_ends_program
    (config_file config_key : string)
    (config : gmap string toml.difference_table)
    (this_config : toml.difference_table) (t : Z)
    (s : Detector2D.stage) (fuel : nat) :
  parse_file config_file = Ok config ->
  config !! config_key = Some this_config ->
  toml.diff_threshold this_config = Some t ->
  to_int t < 0 ->
  0 <= cv.height (DifferenceDetector2D.blur_size (Detector2D.detector s)) ->
  exists d',
    configure config_file config_key (Detector2D.detector s)
    = (Throw (runtime_error
                (DifferenceDetector2D.diff_threshold_message
                   config_file config_key)), d')
    /\ DifferenceDetector2D.difference_intensity_threshold d' = to_int t
    /\ DifferenceDetector2D.tuning_on d'
       = DifferenceDetector2D.tuning_on (Detector2D.detector s)
    /\ main (Some (config_file, config_key)) fuel s
       = Some (-1, Detector2D.mkStage d' (Detector2D.frame_source s)
                     (Detector2D.position_sink s)).
Proof.
  intros Hp Hk Ht Htr Hh.
  destruct s as [d frames sink].
  cbn [Detector2D.detector Detector2D.frame_source Detector2D.position_sink]
    in *.
  assert (Hc : exists d',
             configure config_file config_key d
             = (Throw (runtime_error
                         (DifferenceDetector2D.diff_threshold_message
                            config_file config_key)), d')
             /\ DifferenceDetector2D.difference_intensity_threshold d'
                = to_int t
             /\ DifferenceDetector2D.tuning_on d'
                = DifferenceDetector2D.tuning_on d).
  { unfold DifferenceDetector2D.configure. run_monad.
    rewrite Hp, Hk, Ht.
    assert (Hneg : (to_int t <? 0) = true) by lia.
    destruct d as [title created lset ton bon bsize T this last thr pos].
    destruct (toml.blur this_config) as [b|].
    - unfold DifferenceDetector2D.set_blur_size. fields.
      cbn [toml.is_value negb]. rewrite orb_false_r.
      destruct (0 <? to_int b) eqn:E; fields; cbn [cv.height] in *.
      + assert ((to_int b <? 0) = false) as -> by lia.
        rewrite Hneg. eexists. repeat split; reflexivity.
      + assert ((cv.height bsize <? 0) = false) as -> by lia.
        rewrite Hneg. eexists. repeat split; reflexivity.
    - fields. rewrite Hneg. eexists. repeat split; reflexivity. }
  destruct Hc as (d' & Hc & HT & Hton).
  exists d'. split; [exact Hc|]. split; [exact HT|]. split; [exact Hton|].
  cbv beta iota zeta delta [posidet.main Detector2D.detector
                            Detector2D.frame_source
                            Detector2D.position_sink].
  rewrite Hc. reflexivity.
Qed.

End ConfigureProperties.

(** ** More on the background subtractor *)

Lemma filter_keeps_background (frame : cv.Mat) (b : BackgroundSubtractor.t) :
  BackgroundSubtractor.background_set b = true ->
  snd (BackgroundSubtractor.filter frame b) = b.
Proof.
  intros Hset. unfold BackgroundSubtractor.filter. rewrite Hset.
  destruct (cv.subtract frame (BackgroundSubtractor.background_img b));
    reflexivity.
Qed.

Lemma filter_frames_keeps_background (frames : list cv.Mat)
    (b : BackgroundSubtractor.t) :
  BackgroundSubtractor.background_set b = true ->
  snd (filter_frames frames b) = b
  /\ length (fst (filter_frames frames b)) = length frames.
Proof.
  intros Hset. induction frames as [|frame rest IH]; [split; reflexivity|].
  cbn [filter_frames].
  pose proof (filter_keeps_background frame b Hset) as Hb.
  destruct (BackgroundSubtractor.filter frame b) as [out b1].
  cbn [snd] in Hb. subst b1.
  destruct (filter_frames rest b) as [outs b2]. cbn [fst snd] in *.
  destruct IH as [-> Hlen]. split; [reflexivity|]. simpl. rewrite Hlen.
  reflexivity.
Qed.

(** X10. The background is set once and never replaced.  Given to a new
    filter, a sequence of frames leaves the first frame as the background,
    however many frames follow and whatever they are; the first frame is
    returned as it came and every frame is answered by one frame.  A filter
    that has a background keeps it over any sequence of frames. *)
Theorem background_is_set_once
    (source_name sink_name : string) (first : cv.Mat) (rest : list cv.Mat)
    (frames : list cv.Mat) (b : BackgroundSubtractor.t) :
  BackgroundSubtractor.background_set b = true ->
  snd (filter_frames frames b) = b
  /\ snd (filter_frames (first :: rest)
            (BackgroundSubtractor.new source_name sink_name))
     = BackgroundSubtractor.mk true first
  /\ head (fst (filter_frames (first :: rest)
                  (BackgroundSubtractor.new source_name sink_name)))
     = Some first
  /\ length (fst (filter_frames (first :: rest)
                    (BackgroundSubtractor.new source_name sink_name)))
     = S (length rest).
Proof.
  intros Hset.
  split; [apply (filter_frames_keeps_background frames b Hset)|].
  cbn [filter_frames].
  change (BackgroundSubtractor.filter first
            (BackgroundSubtractor.new source_name sink_name))
    with (first, BackgroundSubtractor.mk true first).
  cbv beta iota.
  destruct (filter_frames_keeps_background rest
              (BackgroundSubtractor.mk true first) eq_refl) as [Hb Hlen].
  destruct (filter_frames rest (BackgroundSubtractor.mk true first))
    as [outs b2].
  cbn [fst snd] in *. subst b2. split; [reflexivity|].
  split; [reflexivity|]. simpl. rewrite Hlen. reflexivity.
Qed.

Lemma sub_sat_pixel (p q : list Z) :
  length p = length q ->
  Forall (fun v => 0 <= v <= 255) p ->
  Forall (fun v => 0 <= v <= 255) q ->
  length (zip_with cv.sub_sat p q) = length p
  /\ Forall (fun v => 0 <= v <= 255) (zip_with cv.sub_sat p q)
  /\ Forall2 Z.le (zip_with cv.sub_sat p q) p.
Proof.
  intros Hlen Hp. revert q Hlen.
  induction Hp as [|x p Hx Hp IH]; intros [|y q] Hlen Hq;
    try discriminate Hlen; simpl.
  - repeat split; constructor.
  - inversion Hq as [|? ? Hy Hq']; subst.
    destruct (IH q ltac:(simpl in Hlen; lia) Hq') as (Hl & Hr & Hle).
    split; [rewrite Hl; reflexivity|]. split.
    + constructor; [apply saturate_cast_uchar_range|exact Hr].
    + constructor; [|exact Hle].
      unfold cv.sub_sat, cv.saturate_cast_uchar. lia.
Qed.

Lemma sub_sat_image (n : nat) (F B : list (list Z)) :
  length F = length B ->
  Forall (fun p => length p = n /\ Forall (fun v => 0 <= v <= 255) p) F ->
  Forall (fun p => length p = n /\ Forall (fun v => 0 <= v <= 255) p) B ->
  length (zip_with (zip_with cv.sub_sat) F B) = length F
  /\ Forall (fun p => length p = n /\ Forall (fun v => 0 <= v <= 255) p)
       (zip_with (zip_with cv.sub_sat) F B)
  /\ Forall2 (Forall2 Z.le) (zip_with (zip_with cv.sub_sat) F B) F.
Proof.
  intros Hlen HF. revert B Hlen.
  induction HF as [|p F [Hn Hp] HF IH]; intros [|q B] Hlen HB;
    try discriminate Hlen; simpl.
  - repeat split; constructor.
  - inversion HB as [|? ? [Hm Hq] HB']; subst.
    destruct (IH B ltac:(simpl in Hlen; lia) HB') as (Hl & Hr & Hle).
    destruct (sub_sat_pixel p q ltac:(lia) Hp Hq) as (Hl' & Hr' & Hle').
    split; [rewrite Hl; reflexivity|]. split.
    + constructor; [split; [lia|exact Hr']|exact Hr].
    + constructor; [exact Hle'|exact Hle].
Qed.

(** X11. On well-formed 8-bit images (the frame, and the background if
    there is one) [filter] returns a well-formed 8-bit image of the frame's
    shape in which no value is larger than in the frame: background
    subtraction never brightens a pixel, whether it subtracts, passes the
    frame through or adopts it as background. *)
Theorem filter_never_brightens (frame : cv.Mat) (b : BackgroundSubtractor.t) :
  valid_8u frame ->
  (BackgroundSubtractor.background_set b = true ->
   valid_8u (BackgroundSubtractor.background_img b)) ->
  valid_8u (fst (BackgroundSubtractor.filter frame b))
  /\ cv.same_shape (fst (BackgroundSubtractor.filter frame b)) frame = true
  /\ mat_le (fst (BackgroundSubtractor.filter frame b)) frame.
Proof.
  intros Hf Hb. unfold BackgroundSubtractor.filter.
  destruct (BackgroundSubtractor.background_set b) eqn:Hset;
    [|cbn [fst]; split; [exact Hf|split;
                                    [apply same_shape_refl|apply mat_le_refl]]].
  specialize (Hb eq_refl). unfold cv.subtract.
  destruct (cv.same_shape frame (BackgroundSubtractor.background_img b))
    eqn:Hshape.
  - rewrite (arithm_op_same_shape _ _ _ Hshape). cbn [fst].
    destruct (same_shape_eqs _ _ Hshape) as (Hr & Hc & Hch).
    destruct Hf as [Hlf Hpf]. destruct Hb as [Hlb Hpb].
    rewrite <- Hr, <- Hc in Hlb. rewrite <- Hch in Hpb.
    assert (Hlen : length (cv.data frame)
                   = length (cv.data (BackgroundSubtractor.background_img b)))
      by (rewrite Hlf, Hlb; reflexivity).
    destruct (sub_sat_image _ _ _ Hlen Hpf Hpb) as (Hl & Hv & Hle).
    split; [split; cbn [cv.data cv.rows cv.cols cv.channels];
            [rewrite Hl; exact Hlf|exact Hv]|].
    split; [apply same_shape_mk|exact Hle].
  - rewrite (arithm_op_mismatch _ _ _ Hshape). cbn [fst].
    split; [exact Hf|split; [apply same_shape_refl|apply mat_le_refl]].
Qed.

Section SubtractorConfigure.
Variable parse_file : toml.parser toml.background_table.
Variable imread : string -> Result cv.Mat.

#[local] Abbreviation configure :=
  (BackgroundSubtractor.configure parse_file imread).

(** X12. A configuration file that cannot be parsed (the parse error is
    caught and printed, which leaves an empty configuration) and a file
    without a table under the key both make [configure] end the process
    with [EXIT_FAILURE]; the filter has not been changed. *)
Theorem subtractor_configure_without_table_exits
    (config_file config_key : string) (b : BackgroundSubtractor.t) :
  match parse_file config_file with
  | Throw (parse_exception _) =>
      configure config_file config_key b
      = (BackgroundSubtractor.Exited BackgroundSubtractor.EXIT_FAILURE, b)
  | Throw e =>
      configure config_file config_key b = (BackgroundSubtractor.Raised e, b)
  | Ok config =>
      match config !! config_key with
      | None =>
          configure config_file config_key b
          = (BackgroundSubtractor.Exited BackgroundSubtractor.EXIT_FAILURE, b)
      | Some _ => True
      end
  end.
Proof.
  unfold BackgroundSubtractor.configure.
  destruct (parse_file config_file) as [config|[msg|msg|msg]]; try reflexivity.
  destruct (config !! config_key); [exact I|reflexivity].
Qed.

(** X13. With a table under the key, [configure] returns and installs
    whatever matrix [cv::imread] returns for the path in [background] (for
    the empty path when the table has no such key), replacing any earlier
    background, without looking at the matrix.  From then on the background
    is that matrix: no frame is ever adopted as background. *)
Theorem subtractor_configure_installs_imread_result
    (config_file config_key : string)
    (config : gmap string toml.background_table)
    (this_config : toml.background_table) (img : cv.Mat)
    (b : BackgroundSubtractor.t) (frames : list cv.Mat) :
  parse_file config_file = Ok config ->
  config !! config_key = Some this_config ->
  imread (default EmptyString (toml.background this_config)) = Ok img ->
  configure config_file config_key b
    = (BackgroundSubtractor.Returned, BackgroundSubtractor.mk true img)
  /\ snd (filter_frames frames (BackgroundSubtractor.mk true img))
     = BackgroundSubtractor.mk true img.
Proof.
  intros Hp Hk Hi. split.
  - unfold BackgroundSubtractor.configure. rewrite Hp, Hk.
    destruct (toml.background this_config) as [path|]; cbn in Hi;
      rewrite Hi; reflexivity.
  - apply (filter_frames_keeps_background frames
             (BackgroundSubtractor.mk true img) eq_refl).
Qed.

End SubtractorConfigure.

(** ** More on the run loop *)

Section RunExits.
Context {St : Type}.
Variable process : M St bool.
Variable quit_at : nat -> bool.

(** X14. The loop has no other normal exit: if [run] returns after [n]
    iterations, then [n] calls of [process] returned one after the other
    and the state is the one the last of them left; the loop condition saw
    no quit request before any of them; none but the last reported
    exhaustion; and the condition then saw a quit request or the last call
    had reported exhaustion. *)
Theorem run_exit_has_a_cause (fuel : nat) (s s' : St) (n : nat) :
  run process quit_at fuel s = Some (Ok n, s') ->
  exists eofs,
    length eofs = n
    /\ returns process s eofs s'
    /\ (forall i, (i < n)%nat -> quit_at i = false)
    /\ (forall i eof, eofs !! i = Some eof -> (S i < n)%nat -> eof = false)
    /\ (quit_at n = true \/ last eofs = Some true).
Proof.
  intros Hrun.
  destruct (run_from_exit process quit_at fuel 0%nat false s n s' Hrun)
    as (eofs & Hret & Hn & Hquit & Hfalse & Hstop).
  simpl in Hn. subst n. exists eofs. split; [reflexivity|].
  split; [exact Hret|]. split; [exact Hquit|]. split.
  - intros i eof Hi Hlen. apply (Hfalse (S i)); [exact Hi|exact Hlen].
  - destruct Hstop as [Hq|Hl]; [left; exact Hq|right].
    destruct eofs as [|eof eofs]; [discriminate Hl|exact Hl].
Qed.

Lemma run_from_ends (s s' : St) (eofs : list bool) :
  returns process s eofs s' ->
  last eofs = Some true ->
  forall fuel k,
    (length eofs < fuel)%nat ->
    exists n sn,
      run_from process quit_at fuel k false s = Some (Ok (k + n)%nat, sn)
      /\ (n <= length eofs)%nat
      /\ returns process s (take n eofs) sn.
Proof.
  induction 1 as [s|s eof s1 eofs s' Hcall Hrest IH]; intros Hlast fuel k Hfuel;
    [discriminate Hlast|].
  destruct fuel as [|fuel]; [lia|]. cbn [run_from].
  destruct (quit_at k) eqn:Hq; cbn [negb andb].
  - exists 0%nat, s. rewrite Nat.add_0_r.
    split; [reflexivity|]. split; [lia|constructor].
  - rewrite Hcall. destruct eof.
    + destruct fuel as [|fuel]; [simpl in Hfuel; lia|]. cbn [run_from].
      rewrite andb_false_r. exists 1%nat, s1.
      split; [do 3 f_equal; lia|]. split; [simpl; lia|].
      cbn [take]. rewrite take_0.
      econstructor; [exact Hcall|constructor].
    + destruct eofs as [|eof' eofs]; [discriminate Hlast|].
      destruct (IH Hlast fuel (S k) ltac:(simpl in *; lia))
        as (n & sn & Hrun & Hn & Hret).
      exists (S n), sn. split; [rewrite Hrun; do 3 f_equal; lia|].
      split; [simpl in *; lia|].
      change (take (S n) (false :: eof' :: eofs))
        with (false :: take n (eof' :: eofs)).
      econstructor; [exact Hcall|exact Hret].
Qed.

(** X15. A source that runs dry ends the loop, whatever the quit flag
    does: if the calls of [process] would return [eofs] with exhaustion
    reported by the last of them, then [run] returns after at most
    [length eofs] iterations, in the state that this number of calls
    leaves. *)
Theorem run_ends_when_source_does
    (s s' : St) (eofs : list bool) (fuel : nat) :
  returns process s eofs s' ->
  last eofs = Some true ->
  (length eofs < fuel)%nat ->
  exists n sn,
    run process quit_at fuel s = Some (Ok n, sn)
    /\ (n <= length eofs)%nat
    /\ returns process s (take n eofs) sn.
Proof.
  intros Hret Hlast Hfuel.
  destruct (run_from_ends s s' eofs Hret Hlast fuel 0%nat Hfuel)
    as (n & sn & Hrun & Hn & Hr).
  exists n, sn. split; [exact Hrun|]. split; [exact Hn|exact Hr].
Qed.

Lemma run_from_exception (fuel : nat) :
  forall k s e s',
    run_from process quit_at fuel k false s = Some (Throw e, s') ->
    exists eofs s1,
      returns process s eofs s1
      /\ Forall (eq false) eofs
      /\ (forall i, (i <= length eofs)%nat -> quit_at (k + i) = false)
      /\ process s1 = (Throw e, s').
Proof.
  induction fuel as [|fuel IH]; intros k s e s' Hrun; [discriminate Hrun|].
  cbn [run_from] in Hrun.
  destruct (quit_at k) eqn:Hq; cbn [negb andb] in Hrun; [discriminate Hrun|].
  destruct (process s) as [[eof|e1] s1] eqn:Hcall.
  - destruct eof.
    + destruct fuel as [|fuel]; [discriminate Hrun|].
      cbn [run_from] in Hrun. rewrite andb_false_r in Hrun.
      discriminate Hrun.
    + destruct (IH _ _ _ _ Hrun) as (eofs & s2 & Hret & Hall & Hquit & Hthrow).
      exists (false :: eofs), s2.
      split; [econstructor; eassumption|].
      split; [constructor; [reflexivity|exact Hall]|].
      split; [|exact Hthrow].
      intros [|i] Hi; [rewrite Nat.add_0_r; exact Hq|].
      replace (k + S i)%nat with (S k + i)%nat by lia.
      apply Hquit. simpl in Hi. lia.
  - injection Hrun as <- <-. exists [], s.
    split; [constructor|]. split; [constructor|]. split; [|exact Hcall].
    intros i Hi. simpl in Hi. replace i with 0%nat by lia.
    rewrite Nat.add_0_r. exact Hq.
Qed.

(** X16. The loop is left by an exception exactly when a call of
    [process] throws it: [run] ends with the exception [e] in the state
    [s'] if and only if some number of calls returned without reporting
    exhaustion, no quit request was seen before them or before the next
    call, and that next call threw [e] and left [s'].  No call follows. *)
Theorem run_exception_iff (s s' : St) (e : exn) :
  (exists fuel, run process quit_at fuel s = Some (Throw e, s'))
  <-> exists eofs s1,
        returns process s eofs s1
        /\ Forall (eq false) eofs
        /\ (forall i, (i <= length eofs)%nat -> quit_at i = false)
        /\ process s1 = (Throw e, s').
Proof.
  split.
  - intros [fuel Hrun].
    apply (run_from_exception fuel 0%nat s e s' Hrun).
  - intros (eofs & s1 & Hret & Hall & Hquit & Hthrow).
    exists (S (length eofs)).
    apply (run_throws process quit_at s s1 s' eofs e _ Hret Hall Hquit Hthrow).
    lia.
Qed.

End RunExits.

(** ** Command lines *)

Lemma unpaired_false {A B} (a : option A) (b : option B) :
  cli.unpaired a b = false <->
  (exists x y, a = Some x /\ b = Some y) \/ (a = None /\ b = None).
Proof.
  destruct a as [x|], b as [y|]; cbn; split; intros H;
    try discriminate H; try reflexivity.
  - left. exists x, y. split; reflexivity.
  - destruct H as [(? & ? & _ & H)|[H _]]; discriminate H.
  - destruct H as [(? & ? & H & _)|[_ H]]; discriminate H.
  - right. split; reflexivity.
Qed.

Lemma posidet_type_hash_at (type : string) :
  posidet_startup.type_hash_at type
  = if decide (type = "hsv") then "b"%char
    else if decide (type = "diff") then "a"%char else "000"%char.
Proof.
  unfold posidet_startup.type_hash_at, posidet_startup.type_hash.
  destruct (decide (type = "hsv")) as [->|Hh].
  - rewrite lookup_insert_eq. reflexivity.
  - rewrite lookup_insert_ne by congruence.
    destruct (decide (type = "diff")) as [->|Hd].
    + rewrite lookup_insert_eq. reflexivity.
    + rewrite lookup_insert_ne by congruence. reflexivity.
Qed.

(** X17. posidet creates a detector exactly when the command line was
    parsed, asks for neither help nor version, gives TYPE, SOURCE and SINK,
    gives config-file and config-key both or not at all, and TYPE is "diff"
    or "hsv"; the detector is of that type and gets these names, and it is
    configured exactly when file and key were given.  Otherwise [main]
    returns at once: 0 for help or version, -1 in every other case. *)
Theorem posidet_startup_outcome
    (p : cli.parsed posidet_startup.variables_map) :
  (forall kind source sink config,
      posidet_startup.startup p
        = posidet_startup.Create kind source sink config
      <-> exists vm,
            p = cli.Parsed vm
            /\ posidet_startup.help vm = false
            /\ posidet_startup.version vm = false
            /\ posidet_startup.type vm = Some (posidet_type_name kind)
            /\ posidet_startup.source vm = Some source
            /\ posidet_startup.sink vm = Some sink
            /\ ((exists file key,
                    posidet_startup.config_file vm = Some file
                    /\ posidet_startup.config_key vm = Some key
                    /\ config = Some (file, key))
                \/ (posidet_startup.config_file vm = None
                    /\ posidet_startup.config_key vm = None
                    /\ config = None)))
  /\ (forall code,
         posidet_startup.startup p = posidet_startup.Exit code ->
         (code = 0
          /\ exists vm,
               p = cli.Parsed vm
               /\ (posidet_startup.help vm = true
                   \/ posidet_startup.version vm = true))
         \/ code = -1).
Proof.
  split.
  - intros kind source sink config. split.
    + destruct p as [vm|what]; [|discriminate]. cbn [posidet_startup.startup].
      destruct (posidet_startup.help vm) eqn:Hh; [discriminate|].
      destruct (posidet_startup.version vm) eqn:Hv; [discriminate|].
      destruct (posidet_startup.type vm) as [ty|] eqn:Ht; [|discriminate].
      destruct (posidet_startup.source vm) as [src|] eqn:Hs; [|discriminate].
      destruct (posidet_startup.sink vm) as [snk|] eqn:Hk; [|discriminate].
      destruct (cli.unpaired _ _) eqn:Hu; [discriminate|].
      apply unpaired_false in Hu. cbv zeta.
      rewrite posidet_type_hash_at.
      intros H. exists vm. split; [reflexivity|].
      assert (Hcfg : forall cfg,
                 cfg = match posidet_startup.config_file vm,
                             posidet_startup.config_key vm with
                       | Some file, Some key => Some (file, key)
                       | _, _ => None
                       end ->
                 (exists file key,
                     posidet_startup.config_file vm = Some file
                     /\ posidet_startup.config_key vm = Some key
                     /\ cfg = Some (file, key))
                 \/ (posidet_startup.config_file vm = None
                     /\ posidet_startup.config_key vm = None
                     /\ cfg = None)).
      { intros cfg ->.
        destruct Hu as [(f & k & -> & ->)|[-> ->]]; [left|right].
        - exists f, k. repeat split; reflexivity.
        - repeat split; reflexivity. }
      destruct (decide (ty = "hsv")) as [->|Hne1].
      * destruct (decide ("b"%char = "a"%char)) as [E|_]; [discriminate E|].
        destruct (decide ("b"%char = "b"%char)) as [_|E]; [|contradiction].
        injection H as <- <- <- <-.
        repeat split; try assumption; try reflexivity.
        apply Hcfg. reflexivity.
      * destruct (decide (ty = "diff")) as [->|Hne2].
        -- destruct (decide ("a"%char = "a"%char)) as [_|E]; [|contradiction].
           injection H as <- <- <- <-.
           repeat split; try assumption; try reflexivity.
           apply Hcfg. reflexivity.
        -- destruct (decide ("000"%char = "a"%char)) as [E|_];
             [discriminate E|].
           destruct (decide ("000"%char = "b"%char)) as [E|_];
             [discriminate E|].
           discriminate H.
    + intros (vm & -> & Hh & Hv & Ht & Hs & Hk & Hcfg).
      cbn [posidet_startup.startup]. rewrite Hh, Hv, Ht, Hs, Hk.
      assert (Hu : cli.unpaired (posidet_startup.config_file vm)
                     (posidet_startup.config_key vm) = false).
      { apply unpaired_false.
        destruct Hcfg as [(f & k & Hf & Hk' & _)|(Hf & Hk' & _)];
          [left; exists f, k; split; assumption|right; split; assumption]. }
      rewrite Hu. cbv zeta. rewrite posidet_type_hash_at.
      assert (Hc : match posidet_startup.config_file vm,
                         posidet_startup.config_key vm with
                   | Some file, Some key => Some (file, key)
                   | _, _ => None
                   end = config).
      { destruct Hcfg as [(f & k & Hf & Hk' & Hc')|(Hf & Hk' & Hc')];
          rewrite Hf, ?Hk', Hc'; reflexivity. }
      rewrite Hc. destruct kind; cbn; reflexivity.
  - intros code. destruct p as [vm|what];
      cbn [posidet_startup.startup];
      [|intros H; injection H as <-; right; reflexivity].
    destruct (posidet_startup.help vm) eqn:Hh.
    { intros H. injection H as <-. left. split; [reflexivity|].
      exists vm. split; [reflexivity|left; exact Hh]. }
    destruct (posidet_startup.version vm) eqn:Hv.
    { intros H. injection H as <-. left. split; [reflexivity|].
      exists vm. split; [reflexivity|right; exact Hv]. }
    destruct (posidet_startup.type vm);
      [|intros H; injection H as <-; right; reflexivity].
    destruct (posidet_startup.source vm);
      [|intros H; injection H as <-; right; reflexivity].
    destruct (posidet_startup.sink vm);
      [|intros H; injection H as <-; right; reflexivity].
    destruct (cli.unpaired _ _);
      [intros H; injection H as <-; right; reflexivity|].
    cbv zeta.
    destruct (decide _); [discriminate|].
    destruct (decide _); [discriminate|].
    intros H; injection H as <-; right; reflexivity.
Qed.

Lemma posicom_type_hash_at (type : string) :
  posicom_startup.type_hash_at type
  = if decide (type = "mean") then "a"%char else "000"%char.
Proof.
  unfold posicom_startup.type_hash_at, posicom_startup.type_hash.
  destruct (decide (type = "mean")) as [->|Hne].
  - rewrite lookup_insert_eq. reflexivity.
  - rewrite lookup_insert_ne by congruence. reflexivity.
Qed.

Lemma config_given_iff (file key : option string)
    (config : option (string * string)) :
  cli.unpaired file key = false
  /\ match file, key with
     | Some f, Some k => Some (f, k)
     | _, _ => None
     end = config
  <-> config_given file key config.
Proof.
  unfold config_given. split.
  - intros [Hu <-]. apply unpaired_false in Hu.
    destruct Hu as [(f & k & -> & ->)|[-> ->]]; [left|right].
    + exists f, k. repeat split; reflexivity.
    + repeat split; reflexivity.
  - intros [(f & k & -> & -> & ->)|(-> & -> & ->)]; split; reflexivity.
Qed.

(** X18. posicom creates the combiner exactly when the command line was
    parsed, asks for neither help nor version, has TYPE "mean", at least
    three names after TYPE, and config-file and config-key both or not at
    all.  Without an explicit sink the last name is the sink and the names
    before it, in their order, are the sources; with an explicit sink all
    the names are sources.  In both cases the combiner gets at least two
    sources. *)
Theorem posicom_startup_outcome
    (p : cli.parsed posicom_startup.variables_map)
    (sources : list string) (sink : string)
    (config : option (string * string)) :
  (posicom_startup.startup p = posicom_startup.Create sources sink config
   <-> exists vm names,
         p = cli.Parsed vm
         /\ posicom_startup.help vm = false
         /\ posicom_startup.version vm = false
         /\ posicom_startup.type vm = Some "mean"
         /\ posicom_startup.sources vm = Some names
         /\ (3 <= length names)%nat
         /\ match posicom_startup.sink vm with
            | Some explicit => sources = names /\ sink = explicit
            | None => names = sources ++ [sink]
            end
         /\ config_given (posicom_startup.config_file vm)
              (posicom_startup.config_key vm) config)
  /\ (posicom_startup.startup p = posicom_startup.Create sources sink config
      -> (2 <= length sources)%nat).
Proof.
  assert (Hiff :
    posicom_startup.startup p = posicom_startup.Create sources sink config
    <-> exists vm names,
          p = cli.Parsed vm
          /\ posicom_startup.help vm = false
          /\ posicom_startup.version vm = false
          /\ posicom_startup.type vm = Some "mean"
          /\ posicom_startup.sources vm = Some names
          /\ (3 <= length names)%nat
          /\ match posicom_startup.sink vm with
             | Some explicit => sources = names /\ sink = explicit
             | None => names = sources ++ [sink]
             end
          /\ config_given (posicom_startup.config_file vm)
               (posicom_startup.config_key vm) config).
  { split.
    - destruct p as [vm|what]; [|discriminate]. cbn [posicom_startup.startup].
      destruct (posicom_startup.help vm) eqn:Hh; [discriminate|].
      destruct (posicom_startup.version vm) eqn:Hv; [discriminate|].
      destruct (posicom_startup.type vm) as [ty|] eqn:Ht; [|discriminate].
      destruct (posicom_startup.sources vm) as [names|] eqn:Hs;
        [|discriminate].
      destruct (length names <? 3)%nat eqn:Hlen; [discriminate|].
      apply Nat.ltb_ge in Hlen.
      destruct (posicom_startup.sink vm) as [explicit|] eqn:Hk;
        (destruct (cli.unpaired _ _) eqn:Hu; [discriminate|]); cbv zeta;
        rewrite posicom_type_hash_at;
        (destruct (decide (ty = "mean")) as [->|Hne];
         [destruct (decide ("a"%char = "a"%char)) as [_|E]; [|contradiction]
         |destruct (decide ("000"%char = "a"%char)) as [E|_];
            [discriminate E|discriminate]]);
        intros H; injection H as <- <- Hc; exists vm, names;
        (split; [reflexivity|]); (split; [exact Hh|]);
        (split; [exact Hv|]); (split; [exact Ht|]);
        (split; [exact Hs|]); (split; [exact Hlen|]);
        (split; [rewrite Hk|apply config_given_iff; split; assumption]).
      + split; reflexivity.
      + apply app_removelast_last. intros ->. simpl in Hlen. lia.
    - intros (vm & names & -> & Hh & Hv & Ht & Hs & Hlen & Hsplit & Hcfg).
      apply config_given_iff in Hcfg as [Hu Hc].
      cbn [posicom_startup.startup]. rewrite Hh, Hv, Ht, Hs.
      assert ((length names <? 3)%nat = false) as ->
        by (apply Nat.ltb_ge; exact Hlen).
      destruct (posicom_startup.sink vm) as [explicit|].
      + destruct Hsplit as [-> ->]. rewrite Hu. cbv zeta. rewrite Hc.
        rewrite posicom_type_hash_at. reflexivity.
      + subst names. rewrite removelast_last, last_last, Hu. cbv zeta.
        rewrite Hc, posicom_type_hash_at. reflexivity. }
  split; [exact Hiff|].
  intros H. apply Hiff in H.
  destruct H as (vm & names & _ & _ & _ & _ & _ & Hlen & Hsplit & _).
  destruct (posicom_startup.sink vm).
  - destruct Hsplit as [-> _]. lia.
  - subst names. rewrite length_app in Hlen. simpl in Hlen. lia.
Qed.

(** ** The further properties on concrete inputs *)

(** X1 where the user moves both sliders while the first frame is on
    display: the call leaves the threshold at 40 and the blur off. *)
Lemma detectPosition_keeps_settings_witness :
  settings
    (snd (DifferenceDetector2D.detectPosition reference.blur
            reference.findContours reference.tuning_overlay examples.sliding
            examples.white_spot examples.tuned))
  = settings
      (foldl DifferenceDetector2D.slide examples.tuned
         [DifferenceDetector2D.THRESH 40; DifferenceDetector2D.BLUR 0])
  /\ DifferenceDetector2D.difference_intensity_threshold
       (foldl DifferenceDetector2D.slide examples.tuned
          [DifferenceDetector2D.THRESH 40; DifferenceDetector2D.BLUR 0])
     = 40
  /\ DifferenceDetector2D.blur_on
       (foldl DifferenceDetector2D.slide examples.tuned
          [DifferenceDetector2D.THRESH 40; DifferenceDetector2D.BLUR 0])
     = false
  /\ DifferenceDetector2D.blur_on examples.tuned = true.
Proof.
  assert (Hfst : fst (DifferenceDetector2D.detectPosition reference.blur
                        reference.findContours reference.tuning_overlay
                        examples.sliding examples.white_spot examples.tuned)
                 = Ok examples.centre_1_1)
    by (vm_compute; reflexivity).
  destruct (detectPosition_keeps_settings
              reference.blur reference.findContours reference.tuning_overlay
              examples.sliding examples.white_spot examples.tuned)
    as (_ & _ & Hmoves & _).
  destruct (Hmoves examples.centre_1_1 eq_refl Hfst)
    as (shown & _ & _ & _ & Hs).
  split; [exact Hs|]. repeat split; reflexivity.
Defined.

Lemma detectPosition_window_follows_tuning_witness :
  DifferenceDetector2D.tuning_windows_created
    (snd (examples.detect examples.white_spot examples.tuned))
  = true
  /\ DifferenceDetector2D.tuning_windows_created examples.tuning_ended = true
  /\ DifferenceDetector2D.tuning_windows_created
       (snd (examples.detect examples.black3 examples.tuning_ended))
     = false.
Proof.
  assert (H1 : DifferenceDetector2D.detectPosition reference.blur
                 reference.findContours reference.tuning_overlay
                 reference.waitKey examples.white_spot examples.tuned
               = (Ok examples.centre_1_1,
                  snd (examples.detect examples.white_spot examples.tuned)))
    by (vm_compute; reflexivity).
  assert (H2 : DifferenceDetector2D.detectPosition reference.blur
                 reference.findContours reference.tuning_overlay
                 reference.waitKey examples.black3 examples.tuning_ended
               = (Ok examples.centre_1_1,
                  snd (examples.detect examples.black3
                         examples.tuning_ended)))
    by (vm_compute; reflexivity).
  split; [|split; [vm_compute; reflexivity|]].
  - exact (detectPosition_window_follows_tuning
             reference.blur reference.findContours reference.tuning_overlay
             reference.waitKey examples.white_spot examples.tuned
             (snd (examples.detect examples.white_spot examples.tuned))
             examples.centre_1_1 H1).
  - exact (detectPosition_window_follows_tuning
             reference.blur reference.findContours reference.tuning_overlay
             reference.waitKey examples.black3 examples.tuning_ended
             (snd (examples.detect examples.black3 examples.tuning_ended))
             examples.centre_1_1 H2).
Defined.

Lemma blur_kernel_stays_positive_square_witness :
  blur_kernel_ok examples.blurring
  /\ blur_kernel_ok
       (DifferenceDetector2D.set_blur_size 60 examples.blurring)
  /\ blur_kernel_ok (tuning_window.move_BLUR 0 examples.blurring)
  /\ blur_kernel_ok
       (snd (DifferenceDetector2D.configure examples.negative_blur_config
               "config.toml" "diff" examples.blurring))
  /\ blur_kernel_ok
       (snd (examples.detect examples.black3 examples.blurring)).
Proof.
  assert (H : blur_kernel_ok examples.blurring)
    by (intros _; split; [vm_compute; reflexivity|reflexivity]).
  destruct (blur_kernel_stays_positive_square
              examples.blurring 0 examples.position0 "raw" "pos" 60 0
              examples.negative_blur_config "config.toml" "diff"
              reference.blur reference.findContours reference.tuning_overlay
              reference.waitKey examples.black3 H)
    as (_ & H1 & H2 & _ & H3 & H4).
  exact (conj H (conj H1 (conj H2 (conj H3 H4)))).
Defined.

Lemma same_frame_again_is_invalid_witness :
  exists d',
    examples.detect examples.white_spot examples.after_white_spot
    = (Ok (oat.mkPosition2D
             (cv.mkPoint2f (cv.to_float 3 (-1)) (cv.to_float 3 (-1))) false),
       d').
Proof.
  apply (same_frame_again_is_invalid
           reference.blur reference.findContours reference.tuning_overlay
           reference.waitKey
           reference_blur_keeps_black reference_no_contour_in_black
           examples.white_spot examples.after_white_spot).
  - intros _. split; [vm_compute; reflexivity|reflexivity].
  - reflexivity.
  - vm_compute. reflexivity.
  - vm_compute. discriminate.
Defined.

Lemma threshold_255_blinds_detector_witness :
  exists d',
    examples.detect examples.black3 examples.blind
    = (Ok (oat.mkPosition2D
             (cv.mkPoint2f (cv.to_float 3 (-1)) (cv.to_float 3 (-1))) false),
       d').
Proof.
  apply (threshold_255_blinds_detector
           reference.blur reference.findContours reference.tuning_overlay
           reference.waitKey
           reference_blur_keeps_black reference_no_contour_in_black
           examples.black3 examples.blind examples.black3_gray).
  - intros _. split; [vm_compute; reflexivity|reflexivity].
  - reflexivity.
  - vm_compute. reflexivity.
  - vm_compute. reflexivity.
  - vm_compute. discriminate.
Defined.

Lemma configure_stores_valid_settings_witness :
  exists d',
    DifferenceDetector2D.configure examples.tuning_config
      "config.toml" "diff" examples.detector0
    = (Ok tt, d')
    /\ DifferenceDetector2D.blur_on d' = true
    /\ DifferenceDetector2D.blur_size d' = cv.mkSize 5 5
    /\ DifferenceDetector2D.difference_intensity_threshold d' = 40
    /\ DifferenceDetector2D.tuning_on d' = true.
Proof.
  destruct (configure_stores_valid_settings
              examples.tuning_config "config.toml" "diff"
              {[ "diff" := toml.mkDifferenceTable (Some 5) (Some 40)
                             (Some true) ]}
              (toml.mkDifferenceTable (Some 5) (Some 40) (Some true))
              5 40 examples.detector0)
    as (d' & Hc & Hon & Hsize & HT & Htune & _).
  - reflexivity.
  - apply lookup_singleton_eq.
  - reflexivity.
  - reflexivity.
  - lia.
  - lia.
  - vm_compute. discriminate.
  - exists d'. split; [exact Hc|]. split; [exact Hon|].
    split; [apply Hsize; lia|]. split; [exact HT|exact Htune].
Defined.

Lemma configure_negative_diff_threshold_ends_program_witness :
  exists d',
    posidet.main reference.blur reference.findContours
      reference.tuning_overlay reference.waitKey
      examples.negative_threshold_config
      examples.never_quit (Some ("config.toml", "diff")) 6
      examples.four_frames
    = Some (-1, Detector2D.mkStage d'
                  [examples.black3; examples.black3; examples.black3;
                   examples.black3] [])
    /\ DifferenceDetector2D.difference_intensity_threshold d' = -1
    /\ DifferenceDetector2D.tuning_on d' = false.
Proof.
  destruct (configure_negative_diff_threshold_ends_program
              reference.blur reference.findContours reference.tuning_overlay
              reference.waitKey
              examples.negative_threshold_config examples.never_quit
              "config.toml" "diff"
              {[ "diff" := toml.mkDifferenceTable None (Some (-1))
                             (Some true) ]}
              (toml.mkDifferenceTable None (Some (-1)) (Some true))
              (-1) examples.four_frames 6)
    as (d' & _ & HT & Htune & Hmain).
  - reflexivity.
  - apply lookup_singleton_eq.
  - reflexivity.
  - vm_compute. reflexivity.
  - vm_compute. discriminate.
  - exists d'. split; [exact Hmain|]. split; [exact HT|exact Htune].
Defined.

Lemma background_is_set_once_witness :
  snd (filter_frames [examples.white_spot; examples.black3]
         (BackgroundSubtractor.mk true examples.black3))
  = BackgroundSubtractor.mk true examples.black3
  /\ snd (filter_frames
            [examples.white_spot; examples.black3; examples.black4]
            (BackgroundSubtractor.new "raw" "sub"))
     = BackgroundSubtractor.mk true examples.white_spot.
Proof.
  destruct (background_is_set_once "raw" "sub" examples.white_spot
              [examples.black3; examples.black4]
              [examples.white_spot; examples.black3]
              (BackgroundSubtractor.mk true examples.black3) eq_refl)
    as (Hkept & Hfirst & _).
  split; [exact Hkept|exact Hfirst].
Defined.

Lemma filter_never_brightens_witness :
  valid_8u examples.white_spot
  /\ valid_8u examples.black3
  /\ mat_le
       (fst (BackgroundSubtractor.filter examples.white_spot
               (BackgroundSubtractor.mk true examples.black3)))
       examples.white_spot.
Proof.
  assert (Hw : valid_8u examples.white_spot)
    by (split; [reflexivity|];
        repeat (constructor; [split; [reflexivity|];
                              repeat (constructor; [lia|])|]);
        constructor).
  assert (Hb : valid_8u examples.black3)
    by (split; [reflexivity|];
        repeat (constructor; [split; [reflexivity|];
                              repeat (constructor; [lia|])|]);
        constructor).
  destruct (filter_never_brightens examples.white_spot
              (BackgroundSubtractor.mk true examples.black3) Hw
              (fun _ => Hb))
    as (_ & _ & Hle).
  exact (conj Hw (conj Hb Hle)).
Defined.

Lemma subtractor_configure_installs_imread_result_witness :
  BackgroundSubtractor.configure examples.background_config
    examples.imread_unreadable "config.toml" "bg"
    (BackgroundSubtractor.mk true examples.black3)
  = (BackgroundSubtractor.Returned,
     BackgroundSubtractor.mk true cv.Mat_empty)
  /\ snd (filter_frames [examples.white_spot; examples.black3]
            (BackgroundSubtractor.mk true cv.Mat_empty))
     = BackgroundSubtractor.mk true cv.Mat_empty.
Proof.
  apply (subtractor_configure_installs_imread_result
           examples.background_config examples.imread_unreadable
           "config.toml" "bg"
           {[ "bg" := toml.mkBackgroundTable (Some "missing.png") ]}
           (toml.mkBackgroundTable (Some "missing.png")) cv.Mat_empty
           (BackgroundSubtractor.mk true examples.black3)
           [examples.white_spot; examples.black3]).
  - reflexivity.
  - apply lookup_singleton_eq.
  - reflexivity.
Defined.

Lemma run_exit_has_a_cause_witness :
  exists eofs,
    length eofs = 5%nat
    /\ (forall i eof, eofs !! i = Some eof -> (S i < 5)%nat -> eof = false)
    /\ (examples.never_quit 5 = true \/ last eofs = Some true).
Proof.
  assert (H : run (posidet.process reference.blur reference.findContours
                     reference.tuning_overlay reference.waitKey)
                examples.never_quit 6 examples.four_frames
              = Some (Ok 5%nat,
                      from_option snd examples.four_frames
                        (run (posidet.process reference.blur
                                reference.findContours
                                reference.tuning_overlay reference.waitKey)
                           examples.never_quit 6 examples.four_frames)))
    by (vm_compute; reflexivity).
  destruct (run_exit_has_a_cause
              (posidet.process reference.blur reference.findContours
                 reference.tuning_overlay reference.waitKey)
              examples.never_quit 6 examples.four_frames
              (from_option snd examples.four_frames
                 (run (posidet.process reference.blur reference.findContours
                         reference.tuning_overlay reference.waitKey)
                    examples.never_quit 6 examples.four_frames))
              5%nat H)
    as (eofs & Hlen & _ & _ & Hfalse & Hstop).
  exists eofs. split; [exact Hlen|]. split; [exact Hfalse|exact Hstop].
Defined.

Lemma run_ends_when_source_does_witness :
  exists n sn,
    run (posidet.process reference.blur reference.findContours
           reference.tuning_overlay reference.waitKey)
      examples.quit_in_second 6 examples.four_frames
    = Some (Ok n, sn)
    /\ (n <= 5)%nat.
Proof.
  assert (Hr : exists s',
             returns (posidet.process reference.blur reference.findContours
                        reference.tuning_overlay reference.waitKey)
               examples.four_frames [false; false; false; false; true] s').
  { eexists. repeat (eapply returns_cons; [vm_compute; reflexivity|]).
    apply returns_nil. }
  destruct Hr as [s' Hr].
  destruct (run_ends_when_source_does
              (posidet.process reference.blur reference.findContours
                 reference.tuning_overlay reference.waitKey)
              examples.quit_in_second examples.four_frames s'
              [false; false; false; false; true] 6 Hr eq_refl
              ltac:(simpl; lia))
    as (n & sn & Hrun & Hn & _).
  exists n, sn. split; [exact Hrun|exact Hn].
Defined.
